(** * The TradeX ledger services over a relational store

    A shallow embedding of [src/services/supabaseService.ts] together with
    the tables of [supabase/schema.sql].

    - A table is the list of its rows, newest first; [.eq(col, v)] keeps the
      rows whose column equals [v], [.update(patch)] rewrites every row it
      keeps, [.single()] answers only when exactly one row is kept.
    - Every [await supabase...] is one round trip.  A service function is a
      tree of round trips ([Async]); the backend of a run is the stream of
      its answers ([Backend]): either the request is served, or it comes back
      with an error object and the tables are left as they were.
    - Amounts are exact integers; fractional amounts, the rounding of
      JavaScript numbers and the range of the DECIMAL(15, 2) columns are
      outside the model.  Instants are ECMAScript time values, whole
      milliseconds since the epoch, and a duration is a whole number of
      minutes.  The [created_at] and [updated_at] columns, which
      only the store's triggers write, and the row-level-security policies
      are left out. *)

From stdpp Require Import base decidable option list strings pretty gmap.

Local Open Scope Z_scope.
Local Open Scope string_scope.

(** ** Columns *)

Abbreviation uuid := string (only parsing).
Abbreviation timestamptz := Z (only parsing).
Abbreviation money := Z (only parsing).

Inductive Role := RoleUser | RoleAdmin.
Inductive KycStatus := KycPending | KycVerified | KycRejected.
Inductive AccountStatus := active | hold.
Inductive DepositStatus := DepositPending | DepositApproved | DepositRejected.
Inductive WithdrawalStatus := pending | processing | held | completed | rejected | failed.

#[global] Instance Role_eq_dec : EqDecision Role.
Proof. solve_decision. Defined.
#[global] Instance KycStatus_eq_dec : EqDecision KycStatus.
Proof. solve_decision. Defined.
#[global] Instance AccountStatus_eq_dec : EqDecision AccountStatus.
Proof. solve_decision. Defined.
#[global] Instance DepositStatus_eq_dec : EqDecision DepositStatus.
Proof. solve_decision. Defined.
#[global] Instance WithdrawalStatus_eq_dec : EqDecision WithdrawalStatus.
Proof. solve_decision. Defined.

(** ** Rows (schema.sql) *)

Record Profile := mkProfile {
  p_id : uuid;
  p_email : string;
  p_name : string;
  p_phone : option string;
  p_role : Role;
  p_balance : money;
  p_kyc_status : KycStatus;
  p_kyc_document : option string;
  p_account_status : AccountStatus;
  p_hold_reason : option string
}.

Record Deposit := mkDeposit {
  d_id : uuid;
  d_user_id : uuid;
  d_amount : money;
  d_method : string;
  d_status : DepositStatus;
  d_transaction_id : option string;
  d_upi_id : option string;
  d_utr_number : option string;
  d_bank_name : option string;
  d_account_number : option string;
  d_screenshot_url : option string;
  d_admin_note : option string
}.

Record Withdrawal := mkWithdrawal {
  w_id : uuid;
  w_user_id : uuid;
  w_amount : money;
  w_net_amount : money;
  w_charges : money;
  w_status : WithdrawalStatus;
  w_bank_name : string;
  w_account_number : string;
  w_ifsc_code : string;
  w_account_holder_name : string;
  w_admin_note : option string;
  w_admin_transaction_ref : option string;
  w_payment_proof : option string;
  w_processing_end_time : option timestamptz
}.

Record Setting := mkSetting { s_key : string; s_value : string }.

(** A browser [File] and an object of a storage bucket. *)
Record File := mkFile { file_name : string; file_body : string }.
Record StorageObject := mkStorageObject {
  o_bucket : string;
  o_path : string;
  o_file : File
}.

Record DB := mkDB {
  profiles : list Profile;
  deposits : list Deposit;
  withdrawals : list Withdrawal;
  settings : list Setting;
  objects : list StorageObject
}.

(** ** Patches: the object handed to [.update(...)]

    A column is [None] when its key is absent from the object (an
    [undefined] value is dropped when the request is serialised, so the
    column is left alone); for a nullable column [Some None] writes NULL. *)

Record ProfilePatch := mkProfilePatch {
  pp_email : option string;
  pp_name : option string;
  pp_phone : option (option string);
  pp_role : option Role;
  pp_balance : option money;
  pp_kyc_status : option KycStatus;
  pp_kyc_document : option (option string);
  pp_account_status : option AccountStatus;
  pp_hold_reason : option (option string)
}.

Record DepositPatch := mkDepositPatch {
  dp_status : option DepositStatus;
  dp_admin_note : option (option string)
}.

Record WithdrawalPatch := mkWithdrawalPatch {
  wp_status : option WithdrawalStatus;
  wp_admin_note : option (option string);
  wp_admin_transaction_ref : option (option string);
  wp_payment_proof : option (option string);
  wp_processing_end_time : option (option timestamptz)
}.

Definition patch_profile (u : ProfilePatch) (p : Profile) : Profile :=
  {| p_id := p_id p;
     p_email := default (p_email p) (pp_email u);
     p_name := default (p_name p) (pp_name u);
     p_phone := default (p_phone p) (pp_phone u);
     p_role := default (p_role p) (pp_role u);
     p_balance := default (p_balance p) (pp_balance u);
     p_kyc_status := default (p_kyc_status p) (pp_kyc_status u);
     p_kyc_document := default (p_kyc_document p) (pp_kyc_document u);
     p_account_status := default (p_account_status p) (pp_account_status u);
     p_hold_reason := default (p_hold_reason p) (pp_hold_reason u) |}.

Definition patch_deposit (u : DepositPatch) (d : Deposit) : Deposit :=
  {| d_id := d_id d;
     d_user_id := d_user_id d;
     d_amount := d_amount d;
     d_method := d_method d;
     d_status := default (d_status d) (dp_status u);
     d_transaction_id := d_transaction_id d;
     d_upi_id := d_upi_id d;
     d_utr_number := d_utr_number d;
     d_bank_name := d_bank_name d;
     d_account_number := d_account_number d;
     d_screenshot_url := d_screenshot_url d;
     d_admin_note := default (d_admin_note d) (dp_admin_note u) |}.

Definition patch_withdrawal (u : WithdrawalPatch) (w : Withdrawal) : Withdrawal :=
  {| w_id := w_id w;
     w_user_id := w_user_id w;
     w_amount := w_amount w;
     w_net_amount := w_net_amount w;
     w_charges := w_charges w;
     w_status := default (w_status w) (wp_status u);
     w_bank_name := w_bank_name w;
     w_account_number := w_account_number w;
     w_ifsc_code := w_ifsc_code w;
     w_account_holder_name := w_account_holder_name w;
     w_admin_note := default (w_admin_note w) (wp_admin_note u);
     w_admin_transaction_ref :=
       default (w_admin_transaction_ref w) (wp_admin_transaction_ref u);
     w_payment_proof := default (w_payment_proof w) (wp_payment_proof u);
     w_processing_end_time :=
       default (w_processing_end_time w) (wp_processing_end_time u) |}.

(** The patches the services send. *)

Definition balance_patch (b : money) : ProfilePatch :=
  mkProfilePatch None None None None (Some b) None None None None.

(** ** Errors and answers *)

Inductive Error :=
| PostgrestError (code : string)    (* the [error] member of a table answer *)
| StorageError (message : string)   (* the [error] member of a bucket answer *)
| JsError (message : string)        (* [new Error(message)] *)
| RangeError (message : string).    (* raised by a built-in of the runtime *)

#[global] Instance Error_eq_dec : EqDecision Error.
Proof. solve_decision. Defined.

(** The store's own refusals: [.single()] without exactly one row, a
    duplicate primary key, a dangling [user_id], a column the table does not
    have. *)
Definition PGRST116 : Error := PostgrestError "PGRST116".
Definition unique_violation : Error := PostgrestError "23505".
Definition foreign_key_violation : Error := PostgrestError "23503".
Definition PGRST204 : Error := PostgrestError "PGRST204".

(** The two errors the services raise themselves. *)
Definition AccountOnHold : Error :=
  JsError "Account is on hold. Please contact support.".
Definition InsufficientBalance : Error := JsError "Insufficient balance".

(** What [toISOString()] raises on an Invalid Date. *)
Definition InvalidTimeValue : Error := RangeError "Invalid time value".

(** [{ data, error }] *)
Inductive Response (R : Type) :=
| Data (data : R)
| Failure (error : Error).
Arguments Data {R} data.
Arguments Failure {R} error.

(** ** Tables *)

Section Table.
Context {Row : Type} (key : Row → string).

(** [.eq(key, k)] *)
Definition where_eq (k : string) (rows : list Row) : list Row :=
  filter (λ r, key r = k) rows.

(** [.update(f).eq(key, k)] *)
Definition update_eq (k : string) (f : Row → Row) (rows : list Row) : list Row :=
  (λ r, if decide (key r = k) then f r else r) <$> rows.

(** [.single()] *)
Definition single (rows : list Row) : Response Row :=
  match rows with
  | [r] => Data r
  | _ => Failure PGRST116
  end.

Definition has_key (k : string) (rows : list Row) : bool :=
  bool_decide (where_eq k rows ≠ []).
End Table.

(** What the [profiles:user_id (...)] embedding of a select carries. *)
Record ProfileRef := mkProfileRef {
  pr_name : string;
  pr_email : string;
  pr_account_status : AccountStatus
}.

Definition profile_ref (db : DB) (uid : uuid) : option ProfileRef :=
  (λ p, mkProfileRef (p_name p) (p_email p) (p_account_status p))
    <$> head (where_eq p_id uid (profiles db)).

Record BankDetails := mkBankDetails {
  bank_name : string;
  account_number : string;
  ifsc_code : string;
  account_holder_name : string
}.

(** ** Requests *)

Inductive Query : Type → Type :=
| InsertDeposit (user_id : uuid) (amount : money) (screenshot : option string)
    : Query Deposit
| SelectDeposits (user_id : uuid) : Query (list Deposit)
| SelectAllDeposits : Query (list (Deposit * option (string * string)))
| UpdateDeposit (id : uuid) (patch : DepositPatch) : Query unit
| InsertWithdrawal (user_id : uuid) (amount net_amount charges : money)
    (bank : BankDetails) : Query Withdrawal
| SelectWithdrawals (user_id : uuid) : Query (list Withdrawal)
| SelectAllWithdrawals : Query (list (Withdrawal * option ProfileRef))
| UpdateWithdrawal (id : uuid) (patch : WithdrawalPatch) : Query unit
| SelectProfile (id : uuid) : Query Profile
| SelectAllProfiles : Query (list Profile)
| UpdateProfile (id : uuid) (patch : ProfilePatch) : Query unit
| UpdateProfileReturning (id : uuid) (patch : ProfilePatch) : Query Profile
| SelectSetting (key : string) : Query string
| SelectAllSettings : Query (list Setting)
| UpsertSetting (key value : string) : Query unit
| Upload (bucket path : string) (file : File) (upsert : bool) : Query unit.

Definition set_profiles (ps : list Profile) (db : DB) : DB :=
  mkDB ps (deposits db) (withdrawals db) (settings db) (objects db).
Definition set_deposits (ds : list Deposit) (db : DB) : DB :=
  mkDB (profiles db) ds (withdrawals db) (settings db) (objects db).
Definition set_withdrawals (ws : list Withdrawal) (db : DB) : DB :=
  mkDB (profiles db) (deposits db) ws (settings db) (objects db).
Definition set_settings (ss : list Setting) (db : DB) : DB :=
  mkDB (profiles db) (deposits db) (withdrawals db) ss (objects db).
Definition set_objects (os : list StorageObject) (db : DB) : DB :=
  mkDB (profiles db) (deposits db) (withdrawals db) (settings db) os.

(** A new deposit row: the columns the request names, the defaults of
    schema.sql for the others.  The request's [screenshot] key is not a
    column of [deposits] (the column is [screenshot_url]), so the store
    refuses a request that carries it. *)
Definition insert_deposit (id user_id : uuid) (amount : money)
    (screenshot : option string) (db : DB) : Response Deposit * DB :=
  if bool_decide (screenshot ≠ None) then (Failure PGRST204, db)
  else if has_key d_id id (deposits db) then (Failure unique_violation, db)
  else if negb (has_key p_id user_id (profiles db))
  then (Failure foreign_key_violation, db)
  else
    let row := mkDeposit id user_id amount "upi" DepositPending
                 None None None None None None None in
    (Data row, set_deposits (row :: deposits db) db).

Definition insert_withdrawal (id user_id : uuid) (amount net_amount charges : money)
    (bank : BankDetails) (db : DB) : Response Withdrawal * DB :=
  if has_key w_id id (withdrawals db) then (Failure unique_violation, db)
  else if negb (has_key p_id user_id (profiles db))
  then (Failure foreign_key_violation, db)
  else
    let row := mkWithdrawal id user_id amount net_amount charges pending
                 (bank_name bank) (account_number bank) (ifsc_code bank)
                 (account_holder_name bank) None None None None in
    (Data row, set_withdrawals (row :: withdrawals db) db).

(** [.upsert({ key, value }, { onConflict: 'key' })] *)
Definition upsert_setting (k v : string) (ss : list Setting) : list Setting :=
  if has_key s_key k ss then update_eq s_key k (λ _, mkSetting k v) ss
  else mkSetting k v :: ss.

(** [.from(bucket).upload(path, file, { upsert })]: a bucket refuses a second
    object under a path it already holds unless the upload asks to replace
    it. *)
Definition at_path (bucket path : string) (o : StorageObject) : bool :=
  bool_decide (o_bucket o = bucket ∧ o_path o = path).

Definition upload (bucket path : string) (file : File) (upsert : bool)
    (db : DB) : Response unit * DB :=
  let kept := List.filter (λ o, negb (at_path bucket path o)) (objects db) in
  if existsb (at_path bucket path) (objects db) && negb upsert
  then (Failure (StorageError "The resource already exists"), db)
  else (Data (), set_objects (mkStorageObject bucket path file :: kept) db).

(** One served request.  [id] is what [uuid_generate_v4()] yields if the
    request inserts a row. *)
Definition exec {R} (id : uuid) (q : Query R) (db : DB) : Response R * DB :=
  match q in Query R return Response R * DB with
  | InsertDeposit user_id amount screenshot =>
      insert_deposit id user_id amount screenshot db
  | SelectDeposits user_id => (Data (where_eq d_user_id user_id (deposits db)), db)
  | SelectAllDeposits =>
      (Data ((λ d, (d, (λ r, (pr_name r, pr_email r)) <$> profile_ref db (d_user_id d)))
               <$> deposits db), db)
  | UpdateDeposit i patch =>
      (Data (), set_deposits (update_eq d_id i (patch_deposit patch) (deposits db)) db)
  | InsertWithdrawal user_id amount net_amount charges bank =>
      insert_withdrawal id user_id amount net_amount charges bank db
  | SelectWithdrawals user_id =>
      (Data (where_eq w_user_id user_id (withdrawals db)), db)
  | SelectAllWithdrawals =>
      (Data ((λ w, (w, profile_ref db (w_user_id w))) <$> withdrawals db), db)
  | UpdateWithdrawal i patch =>
      (Data (),
       set_withdrawals (update_eq w_id i (patch_withdrawal patch) (withdrawals db)) db)
  | SelectProfile i => (single (where_eq p_id i (profiles db)), db)
  | SelectAllProfiles => (Data (profiles db), db)
  | UpdateProfile i patch =>
      (Data (), set_profiles (update_eq p_id i (patch_profile patch) (profiles db)) db)
  | UpdateProfileReturning i patch =>
      let ps := update_eq p_id i (patch_profile patch) (profiles db) in
      match single (where_eq p_id i ps) with
      | Data p => (Data p, set_profiles ps db)
      | Failure e => (Failure e, db)
      end
  | SelectSetting k =>
      (match single (where_eq s_key k (settings db)) with
       | Data s => Data (s_value s)
       | Failure e => Failure e
       end, db)
  | SelectAllSettings => (Data (settings db), db)
  | UpsertSetting k v => (Data (), set_settings (upsert_setting k v (settings db)) db)
  | Upload bucket path file upsert => upload bucket path file upsert db
  end.

(** ** The backend of a run *)

Inductive Reply :=
| Served (generated : uuid)   (* the request reaches the store *)
| Refused (error : Error).    (* it comes back with [error]; nothing is written *)

Abbreviation Backend := (nat → Reply) (only parsing).

Definition later (env : Backend) : Backend := λ n, env (S n).

Definition answer {R} (r : Reply) (q : Query R) (db : DB) : Response R * DB :=
  match r with
  | Served id => exec id q db
  | Refused e => (Failure e, db)
  end.

(** ** Service functions *)

Inductive Async (A : Type) : Type :=
| Return (a : A)
| Throw (e : Error)
| Await {R : Type} (q : Query R) (k : Response R → Async A).
Arguments Return {A} a.
Arguments Throw {A} e.
Arguments Await {A R} q k.

Fixpoint bind {A B} (m : Async A) (f : A → Async B) : Async B :=
  match m with
  | Return a => f a
  | Throw e => Throw e
  | Await q k => Await q (λ r, bind (k r) f)
  end.

(** [const { data, error } = await q; if (error) throw error; ...] *)
Definition await_data {A R} (q : Query R) (k : R → Async A) : Async A :=
  Await q (λ r, match r with
                | Data x => k x
                | Failure e => Throw e
                end).

Notation "'let*' x '←' q 'in' k" := (await_data q (λ x, k))
  (at level 10, x binder, q at level 200, k at level 200).
Notation "'do*' q 'in' k" := (await_data q (λ _, k))
  (at level 10, q at level 200, k at level 200).

Inductive Outcome (A : Type) :=
| Resolved (a : A)
| Rejected (e : Error).
Arguments Resolved {A} a.
Arguments Rejected {A} e.

(** The result of a call and the tables it leaves. *)
Fixpoint run {A} (env : Backend) (m : Async A) (db : DB) : Outcome A * DB :=
  match m with
  | Return a => (Resolved a, db)
  | Throw e => (Rejected e, db)
  | Await q k =>
      let '(r, db') := answer (env 0%nat) q db in
      run (later env) (k r) db'
  end.

(** The tables as they stand after each round trip of a call, in order:
    what another reader of the store can see while the call is under way. *)
Fixpoint states {A} (env : Backend) (m : Async A) (db : DB) : list DB :=
  match m with
  | Return _ | Throw _ => []
  | Await q k =>
      let '(r, db') := answer (env 0%nat) q db in
      db' :: states (later env) (k r) db'
  end.

(** The error objects the store handed back during a call. *)
Fixpoint store_errors {A} (env : Backend) (m : Async A) (db : DB) : list Error :=
  match m with
  | Return _ | Throw _ => []
  | Await q k =>
      let '(r, db') := answer (env 0%nat) q db in
      match r with
      | Failure e => e :: store_errors (later env) (k r) db'
      | Data _ => store_errors (later env) (k r) db'
      end
  end.

Inductive Success := success.

(** ** depositService *)

Record DepositView := mkDepositView {
  dv_deposit : Deposit;
  dv_profiles : option (string * string);
  dv_user_name : option string;
  dv_user_email : option string
}.

Module depositService.

Definition create (userId : uuid) (amount : money) (screenshot : option string)
    : Async Deposit :=
  let* data ← InsertDeposit userId amount screenshot in
  Return data.

Definition getUserDeposits (userId : uuid) : Async (list Deposit) :=
  let* data ← SelectDeposits userId in
  Return data.

Definition getAllDeposits : Async (list DepositView) :=
  let* data ← SelectAllDeposits in
  Return ((λ '(deposit, prof), mkDepositView deposit prof (fst <$> prof) (snd <$> prof))
            <$> data).

Definition approve (depositId userId : uuid) (amount : money) : Async Success :=
  do* UpdateDeposit depositId (mkDepositPatch (Some DepositApproved) None) in
  let* profile ← SelectProfile userId in
  let newBalance := p_balance profile + amount in
  do* UpdateProfile userId (balance_patch newBalance) in
  Return success.

Definition reject (depositId : uuid) (adminNote : option string) : Async Success :=
  do* UpdateDeposit depositId
        (mkDepositPatch (Some DepositRejected) (Some <$> adminNote)) in
  Return success.

End depositService.

(** ** withdrawalService *)

Record WithdrawalView := mkWithdrawalView {
  wv_withdrawal : Withdrawal;
  wv_profiles : option ProfileRef;
  wv_user_name : option string;
  wv_user_email : option string;
  wv_account_status : option AccountStatus
}.

(** [transactionRef || null] *)
Definition or_null (s : option string) : option string :=
  match s with
  | Some s' => if decide (s' = "") then None else Some s'
  | None => None
  end.

(** ** Dates

    The [Date] operations of ECMAScript on time values.  A time value counts
    the milliseconds since the epoch in UTC; [None] is NaN, the time value of
    an Invalid Date.  The time zone of the machine is its [LocalTZA]: the
    offset of local time from UTC, asked either at a UTC instant
    ([isUTC = true]) or at a reading of the local wall clock
    ([isUTC = false]). *)

Definition TimeZone := Z → bool → Z.

Definition msPerSecond : Z := 1000.
Definition msPerMinute : Z := 60000.
Definition msPerHour : Z := 3600000.
Definition msPerDay : Z := 86400000.

Definition Day (t : Z) : Z := t `div` msPerDay.
Definition HourFromTime (t : Z) : Z := (t `div` msPerHour) `mod` 24.
Definition MinFromTime (t : Z) : Z := (t `div` msPerMinute) `mod` 60.
Definition SecFromTime (t : Z) : Z := (t `div` msPerSecond) `mod` 60.
Definition msFromTime (t : Z) : Z := t `mod` msPerSecond.

Definition MakeTime (hour min sec ms : Z) : Z :=
  hour * msPerHour + min * msPerMinute + sec * msPerSecond + ms.
Definition MakeDate (day time : Z) : Z := day * msPerDay + time.

(** A time value further than 8.64e15 ms from the epoch is no date. *)
Definition TimeClip (time : Z) : option Z :=
  if bool_decide (Z.abs time ≤ 8640000000000000)%Z then Some time else None.

Section Zone.
Variable LocalTZA : TimeZone.

Definition LocalTime (t : Z) : Z := t + LocalTZA t true.
Definition UTC (t : Z) : Z := t - LocalTZA t false.

(** [date.getMinutes()] of a valid date *)
Definition getMinutes (t : Z) : Z := MinFromTime (LocalTime t).

(** [date.setMinutes(min)] of a valid date: the minutes of the local wall
    clock are replaced, and the reading is taken back to UTC. *)
Definition setMinutes (t : Z) (min : Z) : option Z :=
  let t' := LocalTime t in
  let date :=
    MakeDate (Day t') (MakeTime (HourFromTime t') min (SecFromTime t') (msFromTime t')) in
  TimeClip (UTC date).

End Zone.

Arguments setMinutes : simpl never.

Module withdrawalService.

Definition create (userId : uuid) (amount netAmount charges : money)
    (bankDetails : BankDetails) : Async Withdrawal :=
  let* profile ← SelectProfile userId in
  if decide (p_account_status profile = hold) then Throw AccountOnHold
  else if decide (p_balance profile < amount) then Throw InsufficientBalance
  else
    let* data ← InsertWithdrawal userId amount netAmount charges bankDetails in
    let newBalance := p_balance profile - amount in
    do* UpdateProfile userId (balance_patch newBalance) in
    Return data.

Definition getUserWithdrawals (userId : uuid) : Async (list Withdrawal) :=
  let* data ← SelectWithdrawals userId in
  Return data.

Definition getAllWithdrawals : Async (list WithdrawalView) :=
  let* data ← SelectAllWithdrawals in
  Return ((λ '(withdrawal, prof),
             mkWithdrawalView withdrawal prof (pr_name <$> prof) (pr_email <$> prof)
               (pr_account_status <$> prof)) <$> data).

Definition approve (withdrawalId _userId : uuid) (transactionRef : option string)
    : Async Success :=
  do* UpdateWithdrawal withdrawalId
        (mkWithdrawalPatch (Some completed) None (Some (or_null transactionRef))
           None None) in
  Return success.

Definition reject (withdrawalId : uuid) (amount : money) (userId : uuid)
    (adminNote : option string) : Async Success :=
  do* UpdateWithdrawal withdrawalId
        (mkWithdrawalPatch (Some rejected) (Some <$> adminNote) None None None) in
  let* profile ← SelectProfile userId in
  let newBalance := p_balance profile + amount in
  do* UpdateProfile userId (balance_patch newBalance) in
  Return success.

Definition hold (withdrawalId : uuid) : Async Success :=
  do* UpdateWithdrawal withdrawalId
        (mkWithdrawalPatch (Some held) None None None None) in
  Return success.

(** [now] is the reading of [new Date()], [LocalTZA] the time zone of the
    machine, [durationMinutes] a whole number of minutes.  The request is
    built before it is sent: [toISOString()] raises a RangeError on an
    Invalid Date, and then no request is made. *)
Definition startProcessing (LocalTZA : TimeZone) (now : timestamptz)
    (withdrawalId : uuid) (durationMinutes : Z) : Async Success :=
  let processingEndTime :=
    setMinutes LocalTZA now (getMinutes LocalTZA now + durationMinutes) in
  match processingEndTime with
  | None => Throw InvalidTimeValue
  | Some endTime =>
      do* UpdateWithdrawal withdrawalId
            (mkWithdrawalPatch (Some processing) None None None
               (Some (Some endTime))) in
      Return success
  end.

Definition fail (withdrawalId : uuid) (amount : money) (userId : uuid)
    (reason : string) : Async Success :=
  do* UpdateWithdrawal withdrawalId
        (mkWithdrawalPatch (Some failed) (Some (Some reason)) None None None) in
  let* profile ← SelectProfile userId in
  let newBalance := p_balance profile + amount in
  do* UpdateProfile userId (balance_patch newBalance) in
  Return success.

Definition uploadPaymentProof (withdrawalId : uuid) (base64Proof : string)
    : Async Success :=
  do* UpdateWithdrawal withdrawalId
        (mkWithdrawalPatch (Some completed) None None (Some (Some base64Proof))
           None) in
  Return success.

End withdrawalService.

(** ** settingsService *)

Record BankInfo := mkBankInfo {
  bankName : string;
  accountName : string;
  accountNumber : string;
  ifscCode : string;
  branch : string
}.

(** A plain object ([{}]) whose own properties hold strings is the finite
    map of its own properties; behind them stands [Object.prototype]. *)
Abbreviation JsObject := (gmap string string) (only parsing).

(** The names [Object.prototype] defines. *)
Definition Object_prototype : list string :=
  [ "constructor"; "hasOwnProperty"; "isPrototypeOf"; "propertyIsEnumerable";
    "toLocaleString"; "toString"; "valueOf"; "__defineGetter__";
    "__defineSetter__"; "__lookupGetter__"; "__lookupSetter__"; "__proto__" ].

(** [object[key] = value]: [__proto__] is the one accessor among them, and
    its setter ignores a string; under any other name the assignment makes
    or replaces an own property. *)
Definition assign (key value : string) (object : JsObject) : JsObject :=
  if decide (key = "__proto__") then object else <[key := value]> object.

(** [object[key]]: the own property if there is one, else what
    [Object.prototype] holds under the name, else [undefined]. *)
Inductive Member :=
| Own (value : string)
| Inherited (name : string)
| Undefined.

Definition member (object : JsObject) (key : string) : Member :=
  match object !! key with
  | Some value => Own value
  | None => if bool_decide (key ∈ Object_prototype) then Inherited key else Undefined
  end.

(** [settings.k || d] for a name [k] that [Object.prototype] does not
    define: [v] is the own property, if any. *)
Definition or_default (v : option string) (d : string) : string :=
  match v with
  | Some s => if decide (s = "") then d else s
  | None => d
  end.

Module settingsService.

(** The store's error is logged to the console and [null] is returned. *)
Definition get (key : string) : Async (option string) :=
  Await (SelectSetting key)
    (λ r, match r with
          | Failure _ => Return None
          | Data value => Return (Some value)
          end).

Definition getAll : Async JsObject :=
  let* data ← SelectAllSettings in
  Return (foldl (λ settings item, assign (s_key item) (s_value item) settings) ∅ data).

Definition update (key value : string) : Async Success :=
  do* UpsertSetting key value in
  Return success.

Definition getBankDetails : Async BankInfo :=
  bind getAll (λ settings,
    Return
      {| bankName := or_default (settings !! "bank_name") "State Bank of India";
         accountName :=
           or_default (settings !! "account_name") "TradeX Technologies Pvt Ltd";
         accountNumber := or_default (settings !! "account_number") "1234567890123456";
         ifscCode := or_default (settings !! "ifsc_code") "SBIN0001234";
         branch := or_default (settings !! "bank_branch") "Main Branch, Mumbai" |}).

Definition updateBankDetails (bankDetails : BankInfo) : Async Success :=
  bind (update "bank_name" (bankName bankDetails)) (λ _,
  bind (update "account_name" (accountName bankDetails)) (λ _,
  bind (update "account_number" (accountNumber bankDetails)) (λ _,
  bind (update "ifsc_code" (ifscCode bankDetails)) (λ _,
  bind (update "bank_branch" (branch bankDetails)) (λ _,
  Return success))))).

End settingsService.

(** ** profileService *)

Module profileService.

Definition getProfile (userId : uuid) : Async Profile :=
  let* data ← SelectProfile userId in
  Return data.

Definition updateProfile (userId : uuid) (updates : ProfilePatch) : Async Profile :=
  let* data ← UpdateProfileReturning userId updates in
  Return data.

Definition getAllUsers : Async (list Profile) :=
  let* data ← SelectAllProfiles in
  Return data.

Definition updateBalance (userId : uuid) (newBalance : money) : Async Success :=
  do* UpdateProfile userId (balance_patch newBalance) in
  Return success.

Definition setAccountStatus (userId : uuid) (status : AccountStatus)
    (reason : option string) : Async Success :=
  do* UpdateProfile userId
        (mkProfilePatch None None None None None None None (Some status)
           (if decide (status = hold) then Some <$> reason else Some None)) in
  Return success.

Definition updateKycStatus (userId : uuid) (status : KycStatus) : Async Success :=
  do* UpdateProfile userId
        (mkProfilePatch None None None None None (Some status) None None None) in
  Return success.

Definition submitKyc (userId : uuid) (documentUrl : string) : Async Success :=
  do* UpdateProfile userId
        (mkProfilePatch None None None None None (Some KycPending)
           (Some (Some documentUrl)) None None) in
  Return success.

End profileService.

(** ** storageService *)

(** [name.split('.').pop()]: what follows the last dot, the whole name when
    it has none. *)
Fixpoint split_pop (segment name : string) : string :=
  match name with
  | EmptyString => segment
  | String c rest =>
      if Ascii.eqb c (Ascii.ascii_of_nat 46) (* the dot *) then split_pop "" rest
      else split_pop (segment +:+ String c "") rest
  end.

(** The storage client of supabase-js.  A string is the UTF-8 text of the
    JavaScript string, as the string literals of this file are. *)

Definition in_string (c : Ascii.ascii) (s : string) : bool :=
  existsb (Ascii.eqb c) (String.list_ascii_of_string s).

Definition hex_digit (n : nat) : Ascii.ascii :=
  default (Ascii.ascii_of_nat 48) (String.get n "0123456789ABCDEF").

(** [%XX] for one byte *)
Definition percent_encode (c : Ascii.ascii) : string :=
  let n := Ascii.nat_of_ascii c in
  String (Ascii.ascii_of_nat 37)
    (String (hex_digit (n / 16)) (String (hex_digit (n mod 16)) "")).

(** The characters [encodeURI] keeps: letters, digits, the reserved
    characters of a URI, the marks and the number sign. *)
Definition uri_kept (c : Ascii.ascii) : bool :=
  in_string c
    "ABCDEFGHIJKLMNOPQRSTUVWXYZabcdefghijklmnopqrstuvwxyz0123456789;/?:@&=+$,-_.!~*'()#".

(** [encodeURI(uri)]: every other character is replaced by the escapes of
    the bytes of its UTF-8 encoding. *)
Fixpoint encodeURI (uri : string) : string :=
  match uri with
  | EmptyString => ""
  | String c rest =>
      (if uri_kept c then String c "" else percent_encode c) +:+ encodeURI rest
  end.

Definition slash : Ascii.ascii := Ascii.ascii_of_nat 47.

(** [path.replace(/^\/|\/$/g, '')]: a slash at the start and a slash at the
    end are dropped. *)
Definition strip_slash_start (path : string) : string :=
  match path with
  | String c rest => if Ascii.eqb c slash then rest else path
  | EmptyString => ""
  end.

Fixpoint strip_slash_end (path : string) : string :=
  match path with
  | EmptyString => ""
  | String c EmptyString => if Ascii.eqb c slash then "" else path
  | String c rest => String c (strip_slash_end rest)
  end.

(** [path.replace(/\/+/g, '/')]: a run of slashes becomes one slash. *)
Fixpoint collapse_slashes (after_slash : bool) (path : string) : string :=
  match path with
  | EmptyString => ""
  | String c rest =>
      if Ascii.eqb c slash
      then if after_slash then collapse_slashes true rest
           else String c (collapse_slashes true rest)
      else String c (collapse_slashes false rest)
  end.

(** The path the client uploads to: the path it is given without its empty
    folders. *)
Definition removeEmptyFolders (path : string) : string :=
  collapse_slashes false (strip_slash_end (strip_slash_start path)).

Module storageService.
Section Client.
(** The project URL the client was created with (lib/supabase). *)
Variable supabaseUrl : string.

(** [supabase.storage.from(bucket).upload(path, file, { upsert })] *)
Definition upload_to (bucket path : string) (file : File) (upsert : bool)
    : Query unit :=
  Upload bucket (removeEmptyFolders path) file upsert.

(** [supabase.storage.from(bucket).getPublicUrl(path).data.publicUrl]: no
    request is made; the URL is put together and passed through
    [encodeURI]. *)
Definition getPublicUrl (bucket path : string) : string :=
  encodeURI
    (supabaseUrl +:+ "/storage/v1/object/public/" +:+ bucket +:+ "/" +:+ path).

(** [now] is the reading of [Date.now()]. *)
Definition uploadScreenshot (now : Z) (file : File) (userId : uuid) : Async string :=
  let fileExt := split_pop "" (file_name file) in
  let fileName := userId +:+ "/" +:+ pretty now +:+ "." +:+ fileExt in
  do* upload_to "screenshots" fileName file false in
  Return (getPublicUrl "screenshots" fileName).

Definition uploadKycDocument (now : Z) (file : File) (userId : uuid) : Async string :=
  let fileExt := split_pop "" (file_name file) in
  let fileName := userId +:+ "/kyc_" +:+ pretty now +:+ "." +:+ fileExt in
  do* upload_to "kyc-documents" fileName file false in
  Return (getPublicUrl "kyc-documents" fileName).

Definition uploadQrCode (now : Z) (file : File) : Async string :=
  let fileExt := split_pop "" (file_name file) in
  let fileName := "qr_" +:+ pretty now +:+ "." +:+ fileExt in
  do* upload_to "admin-assets" fileName file true in
  Return (getPublicUrl "admin-assets" fileName).

End Client.
End storageService.

(** ** The callers' arithmetic (WithdrawalModal, WithdrawalFormModal) *)

(** [const netAmount = numAmount - withdrawalCharges] *)
Definition netAmount (numAmount withdrawalCharges : money) : money :=
  numAmount - withdrawalCharges.

(** ** Calls

    One constructor per service function, with its arguments; [perform]
    runs the call for its effect on the store. *)

Inductive Call :=
| DepositCreate (userId : uuid) (amount : money) (screenshot : option string)
| DepositGetUser (userId : uuid)
| DepositGetAll
| DepositApprove (depositId userId : uuid) (amount : money)
| DepositReject (depositId : uuid) (adminNote : option string)
| WithdrawalCreate (userId : uuid) (amount netAmount charges : money)
    (bankDetails : BankDetails)
| WithdrawalGetUser (userId : uuid)
| WithdrawalGetAll
| WithdrawalApprove (withdrawalId userId : uuid) (transactionRef : option string)
| WithdrawalReject (withdrawalId : uuid) (amount : money) (userId : uuid)
    (adminNote : option string)
| WithdrawalHold (withdrawalId : uuid)
| WithdrawalStartProcessing (LocalTZA : TimeZone) (now : timestamptz)
    (withdrawalId : uuid) (durationMinutes : Z)
| WithdrawalFail (withdrawalId : uuid) (amount : money) (userId : uuid)
    (reason : string)
| WithdrawalUploadPaymentProof (withdrawalId : uuid) (base64Proof : string)
| SettingsGet (key : string)
| SettingsGetAll
| SettingsUpdate (key value : string)
| SettingsGetBankDetails
| SettingsUpdateBankDetails (bankDetails : BankInfo)
| ProfileGet (userId : uuid)
| ProfileUpdate (userId : uuid) (updates : ProfilePatch)
| ProfileGetAllUsers
| ProfileUpdateBalance (userId : uuid) (newBalance : money)
| ProfileSetAccountStatus (userId : uuid) (status : AccountStatus)
    (reason : option string)
| ProfileUpdateKycStatus (userId : uuid) (status : KycStatus)
| ProfileSubmitKyc (userId : uuid) (documentUrl : string)
| StorageUploadScreenshot (supabaseUrl : string) (now : Z) (file : File) (userId : uuid)
| StorageUploadKycDocument (supabaseUrl : string) (now : Z) (file : File) (userId : uuid)
| StorageUploadQrCode (supabaseUrl : string) (now : Z) (file : File).

Definition discard {A} (m : Async A) : Async unit := bind m (λ _, Return ()).

Definition perform (c : Call) : Async unit :=
  match c with
  | DepositCreate u a s => discard (depositService.create u a s)
  | DepositGetUser u => discard (depositService.getUserDeposits u)
  | DepositGetAll => discard depositService.getAllDeposits
  | DepositApprove d u a => discard (depositService.approve d u a)
  | DepositReject d n => discard (depositService.reject d n)
  | WithdrawalCreate u a n c b => discard (withdrawalService.create u a n c b)
  | WithdrawalGetUser u => discard (withdrawalService.getUserWithdrawals u)
  | WithdrawalGetAll => discard withdrawalService.getAllWithdrawals
  | WithdrawalApprove w u t => discard (withdrawalService.approve w u t)
  | WithdrawalReject w a u n => discard (withdrawalService.reject w a u n)
  | WithdrawalHold w => discard (withdrawalService.hold w)
  | WithdrawalStartProcessing z t w d =>
      discard (withdrawalService.startProcessing z t w d)
  | WithdrawalFail w a u r => discard (withdrawalService.fail w a u r)
  | WithdrawalUploadPaymentProof w p => discard (withdrawalService.uploadPaymentProof w p)
  | SettingsGet k => discard (settingsService.get k)
  | SettingsGetAll => discard settingsService.getAll
  | SettingsUpdate k v => discard (settingsService.update k v)
  | SettingsGetBankDetails => discard settingsService.getBankDetails
  | SettingsUpdateBankDetails b => discard (settingsService.updateBankDetails b)
  | ProfileGet u => discard (profileService.getProfile u)
  | ProfileUpdate u p => discard (profileService.updateProfile u p)
  | ProfileGetAllUsers => discard profileService.getAllUsers
  | ProfileUpdateBalance u b => discard (profileService.updateBalance u b)
  | ProfileSetAccountStatus u s r => discard (profileService.setAccountStatus u s r)
  | ProfileUpdateKycStatus u s => discard (profileService.updateKycStatus u s)
  | ProfileSubmitKyc u d => discard (profileService.submitKyc u d)
  | StorageUploadScreenshot url t f u => discard (storageService.uploadScreenshot url t f u)
  | StorageUploadKycDocument url t f u =>
      discard (storageService.uploadKycDocument url t f u)
  | StorageUploadQrCode url t f => discard (storageService.uploadQrCode url t f)
  end.

(** [handle_new_user] of schema.sql: the row a sign-up adds to [profiles];
    nothing is added when the id or the email is already taken. *)
Definition handle_new_user (id : uuid) (email : string) (name : option string)
    (role : option Role) (db : DB) : DB :=
  if has_key p_id id (profiles db) || has_key p_email email (profiles db) then db
  else
    set_profiles
      (mkProfile id email (default "" name) None (default RoleUser role) 0 KycPending
         None active None :: profiles db) db.

(** The tables right after schema.sql has run. *)
Definition initial : DB :=
  mkDB [] [] []
    [ mkSetting "withdrawal_charges" "50";
      mkSetting "whatsapp_number" "919999999999";
      mkSetting "qr_code" "";
      mkSetting "bank_name" "State Bank of India";
      mkSetting "account_name" "TradeX Technologies Pvt Ltd";
      mkSetting "account_number" "1234567890123456";
      mkSetting "ifsc_code" "SBIN0001234";
      mkSetting "bank_branch" "Main Branch, Mumbai" ]
    [].

(** ** Vocabulary of the statements *)

(** Exactly one row of the table carries the id, and it is this one. *)
Definition profile_row (db : DB) (id : uuid) (p : Profile) : Prop :=
  where_eq p_id id (profiles db) = [p].
Definition withdrawal_row (db : DB) (id : uuid) (w : Withdrawal) : Prop :=
  where_eq w_id id (withdrawals db) = [w].
Definition deposit_row (db : DB) (id : uuid) (d : Deposit) : Prop :=
  where_eq d_id id (deposits db) = [d].

Definition with_balance (b : money) (p : Profile) : Profile :=
  patch_profile (balance_patch b) p.

(** The one row with the id stands in this status. *)
Definition withdrawal_status (db : DB) (id : uuid) (s : WithdrawalStatus) : Prop :=
  ∃ w, withdrawal_row db id w ∧ w_status w = s.
Definition deposit_status (db : DB) (id : uuid) (s : DepositStatus) : Prop :=
  ∃ d, deposit_row db id d ∧ d_status d = s.

Definition served (r : Reply) : Prop :=
  match r with
  | Served _ => True
  | Refused _ => False
  end.

(** A backend that serves every request of the run. *)
Definition responsive (env : Backend) : Prop := ∀ n, served (env n).


(** Two versions of a withdrawal row that agree on every column except,
    possibly, [status] and [admin_transaction_ref]. *)
Definition same_but_status_and_ref (w w' : Withdrawal) : Prop :=
  w_id w' = w_id w ∧ w_user_id w' = w_user_id w ∧ w_amount w' = w_amount w ∧
  w_net_amount w' = w_net_amount w ∧ w_charges w' = w_charges w ∧
  w_bank_name w' = w_bank_name w ∧ w_account_number w' = w_account_number w ∧
  w_ifsc_code w' = w_ifsc_code w ∧
  w_account_holder_name w' = w_account_holder_name w ∧
  w_admin_note w' = w_admin_note w ∧ w_payment_proof w' = w_payment_proof w ∧
  w_processing_end_time w' = w_processing_end_time w.

(** A service function hands every error object of the store to its caller:
    at each round trip, the branch taken on an error throws that error. *)
Inductive propagates {A : Type} : Async A → Prop :=
| propagates_return a : propagates (Return a)
| propagates_throw e : propagates (Throw e)
| propagates_await {R} (q : Query R) k :
    (∀ e, k (Failure e) = Throw e) →
    (∀ x, propagates (k (Data x))) →
    propagates (Await q k).

(** The states the services can bring the store to, from the tables of
    schema.sql, through sign-ups and calls that [allowed] admits, whatever the
    backend does. *)
Inductive reachable (allowed : Call → Prop) : DB → Prop :=
| reachable_initial : reachable allowed initial
| reachable_sign_up db id email name role :
    reachable allowed db →
    reachable allowed (handle_new_user id email name role db)
| reachable_call db env c :
    reachable allowed db →
    allowed c →
    reachable allowed (run env (perform c) db).2.

Definition balances_non_negative (db : DB) : Prop :=
  Forall (λ p, (0 ≤ p_balance p)%Z) (profiles db).

(** Calls that credit or write only non-negative amounts. *)
Definition non_negative_amounts (c : Call) : Prop :=
  match c with
  | DepositApprove _ _ amount => (0 ≤ amount)%Z
  | WithdrawalReject _ amount _ _ => (0 ≤ amount)%Z
  | WithdrawalFail _ amount _ _ => (0 ≤ amount)%Z
  | ProfileUpdateBalance _ newBalance => (0 ≤ newBalance)%Z
  | ProfileUpdate _ updates => from_option (λ b, (0 ≤ b)%Z) True (pp_balance updates)
  | _ => True
  end.

(** ** Sample data *)

(** A backend that serves everything; the [n]-th request would be given the
    id [id<n>]. *)
Definition quiet : Backend := λ n, Served ("id" +:+ pretty n).

(** A backend that refuses its [n]-th request with a network error. *)
Definition network_error : Error := JsError "TypeError: Failed to fetch".
Definition down_at (n : nat) : Backend :=
  λ i, if decide (i = n) then Refused network_error else quiet i.

Definition alice : Profile :=
  mkProfile "u1" "alice@example.com" "Alice" None RoleUser 1000 KycVerified None
    active None.
Definition hdfc : BankDetails :=
  mkBankDetails "HDFC Bank" "12345678" "HDFC0001234" "Alice".
Definition ledger : DB := set_profiles [alice] initial.

(** Alice with her account put on hold. *)
Definition alice_on_hold : Profile :=
  patch_profile
    (mkProfilePatch None None None None None None None (Some hold)
       (Some (Some "under review"))) alice.
Definition ledger_on_hold : DB := set_profiles [alice_on_hold] initial.

(** A payout of 200 to Alice, already debited, standing in [status]. *)
Definition payout (status : WithdrawalStatus) : Withdrawal :=
  mkWithdrawal "w1" "u1" 200 150 50 status "HDFC Bank" "12345678" "HDFC0001234"
    "Alice" None None None None.
Definition ledger_with_payout (status : WithdrawalStatus) : DB :=
  set_withdrawals [payout status] (set_profiles [with_balance 800 alice] initial).

(** A top-up of 500 for Alice standing in [status]. *)
Definition top_up (status : DepositStatus) : Deposit :=
  mkDeposit "d1" "u1" 500 "upi" status None None None None None None None.
Definition ledger_with_top_up (status : DepositStatus) : DB :=
  set_deposits [top_up status] ledger.

(** Alice right after signing up, and after a top-up of 500 is approved. *)
Definition after_sign_up : DB :=
  handle_new_user "u1" "alice@example.com" (Some "Alice") None initial.
Definition after_top_up : DB :=
  (run quiet (perform (DepositApprove "d1" "u1" 500)) after_sign_up).2.

Definition Berlin : TimeZone :=
  λ t isUTC,
    if isUTC then if bool_decide (t < 1729990800000)%Z then 7200000 else 3600000
    else if bool_decide (t < 1729990800000 + 7200000)%Z then 7200000 else 3600000.

(** ** Proof tactics *)

(** Settles a goal about one of the finitely many states of a run. *)
Ltac pick_state :=
  let Hin := fresh "Hin" in
  intros Hin; decompose_list_elem_of; subst; simpl; by eauto 10.

Ltac unfold_services :=
  unfold perform, discard,
    depositService.create, depositService.getUserDeposits,
    depositService.getAllDeposits, depositService.approve, depositService.reject,
    withdrawalService.create, withdrawalService.getUserWithdrawals,
    withdrawalService.getAllWithdrawals, withdrawalService.approve,
    withdrawalService.reject, withdrawalService.hold,
    withdrawalService.startProcessing, withdrawalService.fail,
    withdrawalService.uploadPaymentProof,
    settingsService.get, settingsService.getAll, settingsService.update,
    settingsService.getBankDetails, settingsService.updateBankDetails,
    profileService.getProfile, profileService.updateProfile,
    profileService.getAllUsers, profileService.updateBalance,
    profileService.setAccountStatus, profileService.updateKycStatus,
    profileService.submitKyc,
    storageService.uploadScreenshot, storageService.uploadKycDocument,
    storageService.uploadQrCode, await_data.

(** Follows a run through every answer the backend and the store can give. *)
Ltac run_cases :=
  repeat (simpl; unfold later, insert_deposit, insert_withdrawal, upload;
          match goal with
          | |- context [answer (?env ?n) _ _] => destruct (env n)
          | |- context [setMinutes ?zone ?t ?min] => destruct (setMinutes zone t min)
          | |- context [single (where_eq ?key ?k ?rows)] =>
              let H := fresh "Hsel" in
              destruct (where_eq key k rows) as [|? [|? ?]] eqn:H
          | |- context [decide ?P] => destruct (decide P)
          | |- context [if ?b then _ else _] => destruct b
          end).

(** Proves that a service function throws each error it receives. *)
Ltac propagate :=
  repeat (simpl;
          first [ apply propagates_return
                | apply propagates_throw
                | (apply propagates_await; [intros ?; reflexivity | intros ?])
                | case_decide
                | match goal with
                  | |- context [setMinutes ?zone ?t ?min] =>
                      destruct (setMinutes zone t min)
                  end ]).

(** The keys under which the bank details are kept in [settings]. *)
Definition bank_keys : list string :=
  ["bank_name"; "account_name"; "account_number"; "ifsc_code"; "bank_branch"].

(** The bank details of another account. *)
Definition nabil : BankInfo :=
  mkBankInfo "Nabil Bank" "TradeX Nepal Pvt Ltd" "0101017500123" "NARBNPKA"
    "Durbar Marg, Kathmandu".

(** Whether a file name contains a dot. *)
Fixpoint has_dot (name : string) : bool :=
  match name with
  | EmptyString => false
  | String c rest => Ascii.eqb c (Ascii.ascii_of_nat 46) || has_dot rest
  end.



(** The calls that may write a balance. *)
Definition writes_balance (c : Call) : bool :=
  match c with
  | DepositApprove _ _ _ | WithdrawalCreate _ _ _ _ _ | WithdrawalReject _ _ _ _
  | WithdrawalFail _ _ _ _ | ProfileUpdate _ _ | ProfileUpdateBalance _ _ => true
  | _ => false
  end.

(** Two versions of a row that agree on what the user asked for: the id, the
    owner, the amounts and the payment details. *)
Definition same_request (w w' : Withdrawal) : Prop :=
  w_id w' = w_id w ∧ w_user_id w' = w_user_id w ∧ w_amount w' = w_amount w ∧
  w_net_amount w' = w_net_amount w ∧ w_charges w' = w_charges w ∧
  w_bank_name w' = w_bank_name w ∧ w_account_number w' = w_account_number w ∧
  w_ifsc_code w' = w_ifsc_code w ∧
  w_account_holder_name w' = w_account_holder_name w.

Definition same_deposit (d d' : Deposit) : Prop :=
  d_id d' = d_id d ∧ d_user_id d' = d_user_id d ∧ d_amount d' = d_amount d ∧
  d_method d' = d_method d ∧ d_transaction_id d' = d_transaction_id d ∧
  d_upi_id d' = d_upi_id d ∧ d_utr_number d' = d_utr_number d ∧
  d_bank_name d' = d_bank_name d ∧ d_account_number d' = d_account_number d ∧
  d_screenshot_url d' = d_screenshot_url d.

(** [after] holds every row of [before], in the same order and up to [same],
    behind at most one new row. *)
Definition kept {Row} (same : Row → Row → Prop) (before after : list Row) : Prop :=
  ∃ new old, after = (new ++ old)%list ∧ (length new ≤ 1)%nat ∧ Forall2 same before old.

(** ** The withdrawal forms (WithdrawalModal, WithdrawalFormModal)

    A form is the state of the component: the five strings its [useState]
    hooks hold.  Each input writes its field as it is typed into, except the
    IFSC input, which writes the upper-cased text.  [parseFloat], [trim] and
    [toUpperCase] are the JavaScript built-ins, taken as given; [parseFloat]
    yields [None] for NaN.  A length is the number of characters of the Rocq
    string, which is the JavaScript length for ASCII text. *)

Record WithdrawalForm := mkWithdrawalForm {
  f_amount : string;
  f_bankName : string;
  f_accountNumber : string;
  f_ifscCode : string;
  f_accountHolderName : string
}.


Inductive Input :=
| AmountInput
| BankNameInput
| AccountNumberInput
| IfscCodeInput
| AccountHolderNameInput.

#[global] Instance Input_eq_dec : EqDecision Input.
Proof. solve_decision. Defined.




(** The bank details both forms send: the fields of the state. *)
Definition form_bank (form : WithdrawalForm) : BankDetails :=
  {| bank_name := f_bankName form;
     account_number := f_accountNumber form;
     ifsc_code := f_ifscCode form;
     account_holder_name := f_accountHolderName form |}.

Module WithdrawalModal.
Section Form.
Variable parseFloat : string → option Z.
Variable trim : string → string.

(** [parseFloat(amount) || 0] *)
Definition numAmount (form : WithdrawalForm) : money :=
  default 0 (parseFloat (f_amount form)).

(** [None] is [return true]; [Some message] is [toast.error(message)]
    followed by [return false]. *)
Definition validateForm (balance withdrawalCharges : money) (form : WithdrawalForm)
    : option string :=
  if bool_decide (f_amount form = "" ∨ (numAmount form ≤ 0)%Z)
  then Some "Please enter a valid amount"
  else if bool_decide (balance < numAmount form)%Z
  then Some "Insufficient balance"
  else if bool_decide (numAmount form ≤ withdrawalCharges)%Z
  then Some ("Amount must be greater than withdrawal charge (₹"
             +:+ pretty withdrawalCharges +:+ ")")
  else if bool_decide (trim (f_bankName form) = "")
  then Some "Bank name is required"
  else if bool_decide (trim (f_accountNumber form) = "" ∨
                       (String.length (f_accountNumber form) < 8)%nat)
  then Some "Valid account number is required"
  else if bool_decide (trim (f_ifscCode form) = "" ∨
                       String.length (f_ifscCode form) ≠ 11%nat)
  then Some "IFSC code must be 11 characters"
  else if bool_decide (trim (f_accountHolderName form) = "")
  then Some "Account holder name is required"
  else None.

(** The call [handleRequestWithdrawal] makes once [validateForm] has
    returned true. *)
Definition request (userId : uuid) (withdrawalCharges : money) (form : WithdrawalForm)
    : Async Withdrawal :=
  withdrawalService.create userId (numAmount form)
    (netAmount (numAmount form) withdrawalCharges) withdrawalCharges (form_bank form).

End Form.
End WithdrawalModal.

Module WithdrawalFormModal.
Section Form.
Variable parseFloat : string → option Z.
Variable trim : string → string.

Definition withdrawalCharge : money := 50.

Definition numAmount (form : WithdrawalForm) : money :=
  default 0 (parseFloat (f_amount form)).

(** [newErrors], filled check by check; a later message for the same field
    replaces an earlier one. *)
Definition newErrors (balance : money) (form : WithdrawalForm) : gmap string string :=
  let errors : gmap string string := ∅ in
  let errors :=
    if bool_decide (f_amount form = "" ∨ (numAmount form ≤ 0)%Z)
    then <["amount" := "Please enter a valid amount"]> errors else errors in
  let errors :=
    if bool_decide (balance < numAmount form)%Z
    then <["amount" := "Insufficient balance"]> errors else errors in
  let errors :=
    if bool_decide (numAmount form ≤ withdrawalCharge)%Z
    then <["amount" := "Amount must be greater than withdrawal charge (₹50)"]> errors
    else errors in
  let errors :=
    if bool_decide (trim (f_bankName form) = "")
    then <["bankName" := "Bank name is required"]> errors else errors in
  let errors :=
    if bool_decide (trim (f_accountNumber form) = "" ∨
                    (String.length (f_accountNumber form) < 8)%nat)
    then <["accountNumber" := "Valid account number is required"]> errors
    else errors in
  let errors :=
    if bool_decide (trim (f_ifscCode form) = "" ∨
                    String.length (f_ifscCode form) ≠ 11%nat)
    then <["ifscCode" := "IFSC code must be 11 characters"]> errors else errors in
  let errors :=
    if bool_decide (trim (f_accountHolderName form) = "")
    then <["accountHolderName" := "Account holder name is required"]> errors
    else errors in
  errors.

(** [Object.keys(newErrors).length === 0] *)
Definition validateForm (balance : money) (form : WithdrawalForm) : bool :=
  bool_decide (size (newErrors balance form) = 0%nat).

(** The call [handleSubmit] makes once [validateForm] has returned true. *)
Definition request (userId : uuid) (form : WithdrawalForm) : Async Withdrawal :=
  withdrawalService.create userId (numAmount form)
    (netAmount (numAmount form) withdrawalCharge) withdrawalCharge (form_bank form).

End Form.
End WithdrawalFormModal.

(** ** The route guards (ProtectedRoute, AdminRoute) *)

Inductive Rendered :=
| LoadingScreen
| Navigate (to : string) (from : option string)
| Children.

(** [user] and [loading] come from [useAuth()], [location] from
    [useLocation()]. *)
Definition ProtectedRoute {User : Type} (user : option User) (loading : bool)
    (location : string) : Rendered :=
  if loading then LoadingScreen
  else match user with
       | None => Navigate "/login" (Some location)
       | Some _ => Children
       end.

Definition AdminRoute {User : Type} (user : option User) (profile : option Profile)
    (loading : bool) (location : string) : Rendered :=
  if loading then LoadingScreen
  else match user with
       | None => Navigate "/login" (Some location)
       | Some _ =>
           if bool_decide (p_role <$> profile ≠ Some RoleAdmin)
           then Navigate "/dashboard" None
           else Children
       end.

(** A trimming function and a number reader for the samples: the one drops
    nothing, the other reads a few amounts. *)
Definition sample_trim : string → string := λ s, s.
Definition sample_parseFloat : string → option Z :=
  λ s, if decide (s = "200") then Some 200
       else if decide (s = "40") then Some 40
       else if decide (s = "0") then Some 0
       else None.
Definition filled_form : WithdrawalForm :=
  mkWithdrawalForm "200" "HDFC Bank" "12345678" "HDFC0001234" "Alice".


(** The primary keys of the three tables and the keys of [settings] are
    pairwise distinct. *)
Definition unique_keys (db : DB) : Prop :=
  NoDup (p_id <$> profiles db) ∧ NoDup (d_id <$> deposits db) ∧
  NoDup (w_id <$> withdrawals db) ∧ NoDup (s_key <$> settings db).

(** [run_cases] that remembers which way each test went. *)
Ltac run_cases_eq :=
  repeat (simpl; unfold later, insert_deposit, insert_withdrawal, upload;
          match goal with
          | |- context [answer (?env ?n) _ _] => destruct (env n)
          | |- context [setMinutes ?zone ?t ?min] => destruct (setMinutes zone t min)
          | |- context [single (where_eq ?key ?k ?rows)] =>
              let H := fresh "Hsel" in
              destruct (where_eq key k rows) as [|? [|? ?]] eqn:H
          | |- context [decide ?P] => destruct (decide P)
          | |- context [if ?b then _ else _] =>
              let H := fresh "Hif" in destruct b eqn:H
          end).

(** * Facts *)

(** ** Tables *)

Section TableFacts.
Context {Row : Type} (key : Row → string).
Implicit Types (rows : list Row) (f : Row → Row) (k : string).

Lemma where_eq_cons k r rows :
  where_eq key k (r :: rows) =
    if decide (key r = k) then r :: where_eq key k rows else where_eq key k rows.
Proof. unfold where_eq. by rewrite filter_cons. Qed.

Lemma where_update_eq k f rows :
  (∀ r, key (f r) = key r) →
  where_eq key k (update_eq key k f rows) = f <$> where_eq key k rows.
Proof.
  intros Hkey. induction rows as [|r rows IH]; [done|].
  unfold update_eq in *. rewrite fmap_cons, !where_eq_cons.
  destruct (decide (key r = k)) as [Hk|Hk].
  - rewrite decide_True by (by rewrite Hkey). by rewrite fmap_cons, IH.
  - by rewrite decide_False.
Qed.


Lemma has_key_false k rows : where_eq key k rows = [] → has_key key k rows = false.
Proof.
  intros H. unfold has_key. rewrite H. apply bool_decide_eq_false.
  intros Hne. by apply Hne.
Qed.

Lemma has_key_true k r rows' rows :
  where_eq key k rows = r :: rows' → has_key key k rows = true.
Proof. intros H. unfold has_key. rewrite H. by apply bool_decide_eq_true. Qed.
End TableFacts.

(** ** Runs *)

Lemma run_await {A R} env (q : Query R) (k : Response R → Async A) db :
  run env (Await q k) db =
    run (later env) (k (answer (env 0%nat) q db).1) (answer (env 0%nat) q db).2.
Proof. simpl. by destruct (answer _ _ _). Qed.

(** ** withdrawalService.create with an amount above the balance *)

(** C1 (as amended).  When the amount exceeds the balance of the profile,
    [withdrawalService.create] is rejected and leaves every table as it was.
    The error is the store's own when the profile read is refused,
    [AccountOnHold] when the account is on hold (that check comes first), and
    [InsufficientBalance] otherwise. *)
Theorem create_above_balance env db userId p amount net charges bank :
  profile_row db userId p →
  p_balance p < amount →
  run env (withdrawalService.create userId amount net charges bank) db =
    (Rejected
       match env 0%nat with
       | Refused e => e
       | Served _ =>
           if decide (p_account_status p = hold) then AccountOnHold
           else InsufficientBalance
       end, db).
Proof.
  intros Hrow Hlt. unfold withdrawalService.create, await_data.
  rewrite run_await. destruct (env 0%nat) as [id|e]; simpl; [|done].
  rewrite Hrow. simpl.
  destruct (decide (p_account_status p = hold)); [done|].
  by rewrite decide_True.
Qed.

Lemma create_above_balance_witness :
  run quiet (withdrawalService.create "u1" 2000 1950 50 hdfc) ledger =
    (Rejected InsufficientBalance, ledger).
Proof.
  apply (create_above_balance quiet ledger "u1" alice 2000 1950 50 hdfc);
    reflexivity.
Defined.

(** C1 as stated fails on an account that is on hold: the request is turned
    down for the hold, not for the balance. *)
Lemma create_above_balance_on_hold :
  ¬ (∀ env db userId p amount net charges bank,
       profile_row db userId p →
       p_balance p < amount →
       run env (withdrawalService.create userId amount net charges bank) db =
         (Rejected InsufficientBalance, db)).
Proof.
  intros H.
  specialize (H quiet ledger_on_hold "u1" alice_on_hold 2000 1950 50 hdfc
                eq_refl eq_refl).
  vm_compute in H. discriminate H.
Qed.

Lemma update_eq_related {Row} (key : Row → string) k f (R : Row → Row → Prop) rows :
  (∀ r, key r = k → R r (f r)) → (∀ r, key r ≠ k → R r r) →
  Forall2 R rows (update_eq key k f rows).
Proof.
  intros Hhit Hmiss. unfold update_eq. apply Forall2_fmap_r, Forall_Forall2_diag.
  apply Forall_forall. intros r _. unfold compose. destruct (decide (key r = k)); auto.
Qed.

(** ** withdrawalService.approve *)

(** C7.  [withdrawalService.approve] leaves the profiles (balances
    included), the deposits, the settings and the stored objects as they
    were, whatever the backend does; in [withdrawals] no row changes in any
    column other than [status] and [admin_transaction_ref], rows with another
    id do not change at all, and once the request is served the rows with the
    id are [completed] and carry the reference. *)
Theorem approve_frame env db withdrawalId userId transactionRef :
  let db' :=
    (run env (withdrawalService.approve withdrawalId userId transactionRef) db).2 in
  profiles db' = profiles db ∧ deposits db' = deposits db ∧
  settings db' = settings db ∧ objects db' = objects db ∧
  Forall2 (λ w w', same_but_status_and_ref w w' ∧ (w_id w ≠ withdrawalId → w' = w))
    (withdrawals db) (withdrawals db') ∧
  (served (env 0%nat) →
   Forall (λ w', w_id w' = withdrawalId →
                 w_status w' = completed ∧
                 w_admin_transaction_ref w' = or_null transactionRef)
     (withdrawals db')).
Proof.
  unfold withdrawalService.approve, await_data. rewrite run_await.
  destruct (env 0%nat) as [id|e]; simpl.
  - repeat split; try done.
    + apply update_eq_related; intros w Hw; by repeat split.
    + intros _. unfold update_eq. apply Forall_fmap, Forall_forall.
      intros w _. simpl. case_decide; simpl; [done|]. intros; congruence.
  - repeat split; try done.
    apply Forall_Forall2_diag, Forall_forall. intros w _. by repeat split.
Qed.

Lemma approve_frame_witness :
  let db' := (run quiet (withdrawalService.approve "w1" "u1" (Some "UTR42"))
                (ledger_with_payout processing)).2 in
  profiles db' = [with_balance 800 alice] ∧
  withdrawals db' =
    [patch_withdrawal
       (mkWithdrawalPatch (Some completed) None (Some (Some "UTR42")) None None)
       (payout processing)].
Proof.
  pose proof (approve_frame quiet (ledger_with_payout processing) "w1" "u1"
                (Some "UTR42")) as H.
  split; [apply H | reflexivity].
Defined.

(** ** withdrawalService.uploadPaymentProof *)

(** C10.  Whatever the status of the withdrawal, terminal or not, a served
    [uploadPaymentProof] resolves, leaves the row [completed] with the proof
    stored, and does not touch the profiles. *)
Theorem upload_payment_proof_completes env id db withdrawalId w base64Proof :
  env 0%nat = Served id →
  withdrawal_row db withdrawalId w →
  ∃ db' w',
    run env (withdrawalService.uploadPaymentProof withdrawalId base64Proof) db =
      (Resolved success, db') ∧
    withdrawal_row db' withdrawalId w' ∧
    w_status w' = completed ∧
    w_payment_proof w' = Some base64Proof ∧
    w_amount w' = w_amount w ∧ w_user_id w' = w_user_id w ∧
    profiles db' = profiles db.
Proof.
  intros Henv Hrow.
  unfold withdrawalService.uploadPaymentProof, await_data.
  rewrite run_await, Henv. simpl. eexists _, _. split; [done|].
  split.
  - unfold withdrawal_row. simpl. rewrite where_update_eq by done.
    by rewrite Hrow.
  - done.
Qed.

Lemma upload_payment_proof_completes_witness :
  ∃ db' w',
    run quiet (withdrawalService.uploadPaymentProof "w1" "cHJvb2Y=")
      (ledger_with_payout rejected) = (Resolved success, db') ∧
    withdrawal_row db' "w1" w' ∧
    w_status w' = completed ∧
    w_payment_proof w' = Some "cHJvb2Y=" ∧
    w_amount w' = 200 ∧ w_user_id w' = "u1" ∧
    profiles db' = [with_balance 800 alice].
Proof.
  apply (upload_payment_proof_completes quiet "id0" (ledger_with_payout rejected)
           "w1" (payout rejected) "cHJvb2Y="); reflexivity.
Defined.

(** ** Status writes and credits *)

Lemma responsive_served env n : responsive env → ∃ id, env n = Served id.
Proof. intros H. specialize (H n). destruct (env n); [eauto|done]. Qed.

Lemma responsive_later env : responsive env → responsive (later env).
Proof. intros H n. apply H. Qed.

Lemma profile_row_update db uid u p :
  profile_row db uid p →
  profile_row (set_profiles (update_eq p_id uid (patch_profile u) (profiles db)) db)
    uid (patch_profile u p).
Proof.
  unfold profile_row. simpl. intros H. rewrite where_update_eq by done.
  by rewrite H.
Qed.

Lemma withdrawal_row_update db id u w :
  withdrawal_row db id w →
  withdrawal_row
    (set_withdrawals (update_eq w_id id (patch_withdrawal u) (withdrawals db)) db)
    id (patch_withdrawal u w).
Proof.
  unfold withdrawal_row. simpl. intros H. rewrite where_update_eq by done.
  by rewrite H.
Qed.

Lemma deposit_row_update db id u d :
  deposit_row db id d →
  deposit_row (set_deposits (update_eq d_id id (patch_deposit u) (deposits db)) db)
    id (patch_deposit u d).
Proof.
  unfold deposit_row. simpl. intros H. rewrite where_update_eq by done.
  by rewrite H.
Qed.

(** A served status write on a withdrawal. *)
Lemma run_update_withdrawal {A} env id0 db wid u (k : Async A) :
  env 0%nat = Served id0 →
  run env (do* UpdateWithdrawal wid u in k) db =
    run (later env) k
      (set_withdrawals (update_eq w_id wid (patch_withdrawal u) (withdrawals db)) db).
Proof. intros H. unfold await_data. by rewrite run_await, H. Qed.

Lemma run_update_deposit {A} env id0 db did u (k : Async A) :
  env 0%nat = Served id0 →
  run env (do* UpdateDeposit did u in k) db =
    run (later env) k
      (set_deposits (update_eq d_id did (patch_deposit u) (deposits db)) db).
Proof. intros H. unfold await_data. by rewrite run_await, H. Qed.

(** The served tail shared by [depositService.approve],
    [withdrawalService.reject] and [withdrawalService.fail]: read the
    balance, write it back increased. *)
Lemma run_credit env db uid p amount :
  responsive env →
  profile_row db uid p →
  run env
    (let* profile ← SelectProfile uid in
     do* UpdateProfile uid (balance_patch (p_balance profile + amount)) in
     Return success) db =
  (Resolved success,
   set_profiles
     (update_eq p_id uid (patch_profile (balance_patch (p_balance p + amount)))
        (profiles db)) db).
Proof.
  intros Hresp Hrow.
  destruct (responsive_served env 0 Hresp) as [id0 H0].
  destruct (responsive_served env 1 Hresp) as [id1 H1].
  unfold await_data. rewrite run_await, H0. simpl.
  unfold profile_row in Hrow. rewrite Hrow. simpl.
  unfold later at 1. by rewrite H1.
Qed.

Lemma reject_served env db wid amount uid note w p :
  responsive env →
  withdrawal_row db wid w →
  profile_row db uid p →
  ∃ db',
    run env (withdrawalService.reject wid amount uid note) db = (Resolved success, db') ∧
    withdrawal_status db' wid rejected ∧
    profile_row db' uid (with_balance (p_balance p + amount) p).
Proof.
  intros Hresp Hw Hp.
  destruct (responsive_served env 0 Hresp) as [id0 H0].
  unfold withdrawalService.reject.
  rewrite (run_update_withdrawal _ id0) by done.
  erewrite run_credit; [|by apply responsive_later|exact Hp].
  eexists. split; [done|]. split.
  - eexists. split; [by apply withdrawal_row_update|done].
  - by apply profile_row_update.
Qed.

Lemma fail_served env db wid amount uid reason w p :
  responsive env →
  withdrawal_row db wid w →
  profile_row db uid p →
  ∃ db' w',
    run env (withdrawalService.fail wid amount uid reason) db = (Resolved success, db') ∧
    withdrawal_row db' wid w' ∧ w_status w' = failed ∧ w_admin_note w' = Some reason ∧
    profile_row db' uid (with_balance (p_balance p + amount) p).
Proof.
  intros Hresp Hw Hp.
  destruct (responsive_served env 0 Hresp) as [id0 H0].
  unfold withdrawalService.fail.
  rewrite (run_update_withdrawal _ id0) by done.
  erewrite run_credit; [|by apply responsive_later|exact Hp].
  eexists _, _. split; [done|]. split; [by apply withdrawal_row_update|].
  split; [done|]. split; [done|]. by apply profile_row_update.
Qed.




Lemma with_balance_twice b b' p : with_balance b (with_balance b' p) = with_balance b p.
Proof. done. Qed.

Lemma quiet_responsive : responsive quiet.
Proof. intros n. exact I. Qed.

(** ** Dates *)

(** Putting the parts of a time value back together with [d] more
    minutes. *)
Lemma minutes_later t d :
  MakeDate (Day t)
    (MakeTime (HourFromTime t) (MinFromTime t + d) (SecFromTime t) (msFromTime t)) =
  t + d * msPerMinute.
Proof.
  unfold MakeDate, MakeTime, Day, HourFromTime, MinFromTime, SecFromTime, msFromTime,
    msPerDay, msPerHour, msPerMinute, msPerSecond.
  Z.div_mod_to_equations. lia.
Qed.

(** [setMinutes(getMinutes() + d)] moves the local wall clock by [d]
    minutes. *)
Lemma setMinutes_later LocalTZA now d :
  setMinutes LocalTZA now (getMinutes LocalTZA now + d) =
  TimeClip (UTC LocalTZA (LocalTime LocalTZA now + d * msPerMinute)).
Proof. unfold setMinutes, getMinutes. by rewrite minutes_later. Qed.

(** [startProcessing] with a deadline that is a date is one status write. *)
Lemma run_start_processing LocalTZA env db now wid minutes deadline :
  setMinutes LocalTZA now (getMinutes LocalTZA now + minutes) = Some deadline →
  run env (withdrawalService.startProcessing LocalTZA now wid minutes) db =
  run env (do* UpdateWithdrawal wid
                 (mkWithdrawalPatch (Some processing) None None None
                    (Some (Some deadline))) in Return success) db.
Proof. intros Hdate. unfold withdrawalService.startProcessing. by rewrite Hdate. Qed.

(** ** Transitions on records in a terminal state *)




(** ** depositService.approve *)




(** ** A withdrawal that is requested, processed and failed *)

Lemma with_balance_same p : with_balance (p_balance p) p = p.
Proof. by destruct p. Qed.

Lemma create_served env db uid p id amount net charges bank :
  responsive env →
  env 1%nat = Served id →
  where_eq w_id id (withdrawals db) = [] →
  profile_row db uid p →
  p_account_status p = active →
  (amount ≤ p_balance p)%Z →
  let w := mkWithdrawal id uid amount net charges pending (bank_name bank)
             (account_number bank) (ifsc_code bank) (account_holder_name bank)
             None None None None in
  ∃ db',
    run env (withdrawalService.create uid amount net charges bank) db =
      (Resolved w, db') ∧
    withdrawal_row db' id w ∧
    profile_row db' uid (with_balance (p_balance p - amount) p).
Proof.
  intros Hresp H1 Hfresh Hp Hactive Hle w.
  destruct (responsive_served env 0 Hresp) as [id0 H0].
  destruct (responsive_served env 2 Hresp) as [id2 H2].
  unfold withdrawalService.create, await_data.
  rewrite run_await, H0. simpl. rewrite Hp. simpl.
  rewrite decide_False by (rewrite Hactive; done).
  rewrite decide_False by lia.
  rewrite run_await. unfold later. rewrite H1. simpl.
  unfold insert_withdrawal.
  rewrite (has_key_false w_id) by done.
  rewrite (has_key_true p_id _ _ _ _ Hp). simpl.
  rewrite H2. simpl.
  eexists. split; [done|]. split.
  - unfold withdrawal_row. simpl. rewrite where_eq_cons, decide_True by done.
    by rewrite Hfresh.
  - unfold profile_row. simpl. rewrite where_update_eq by done.
    unfold profile_row in Hp. by rewrite Hp.
Qed.



(** ** The order of the status write and the balance write *)

Lemma create_states env db uid amount net charges bank s :
  s ∈ states env (withdrawalService.create uid amount net charges bank) db →
  profiles s = profiles db ∨
  ∃ w, withdrawals s = w :: withdrawals db ∧
       w_status w = pending ∧ w_user_id w = uid ∧ w_amount w = amount.
Proof.
  unfold withdrawalService.create, await_data. simpl.
  destruct (env 0%nat) as [id0|e0]; simpl; [|pick_state].
  destruct (where_eq p_id uid (profiles db)) as [|p [|p' ps]]; simpl;
    [pick_state| |pick_state].
  destruct (decide (p_account_status p = hold)); simpl; [pick_state|].
  destruct (decide (p_balance p < amount)); simpl; [pick_state|].
  unfold later. destruct (env 1%nat) as [id1|e1]; simpl; [|pick_state].
  unfold insert_withdrawal.
  destruct (has_key w_id id1 (withdrawals db)); simpl; [pick_state|].
  destruct (has_key p_id uid (profiles db)); simpl; [|pick_state].
  destruct (env 2%nat) as [id2|e2]; simpl; pick_state.
Qed.

Lemma status_then_credit_states env db wid u uid amount s st :
  wp_status u = Some st →
  s ∈ states env
        (do* UpdateWithdrawal wid u in
         let* profile ← SelectProfile uid in
         do* UpdateProfile uid (balance_patch (p_balance profile + amount)) in
         Return success) db →
  profiles s = profiles db ∨
  Forall (λ w, w_id w = wid → w_status w = st) (withdrawals s).
Proof.
  intros Hst. unfold await_data. simpl.
  assert (Hwritten :
    Forall (λ w, w_id w = wid → w_status w = st)
      (update_eq w_id wid (patch_withdrawal u) (withdrawals db))).
  { unfold update_eq. apply Forall_fmap, Forall_forall. intros w _. simpl.
    case_decide; simpl; [by rewrite Hst|done]. }
  destruct (env 0%nat) as [id0|e0]; simpl; [|pick_state].
  unfold later. destruct (env 1%nat) as [id1|e1]; simpl; [|pick_state].
  destruct (where_eq p_id uid (profiles db)) as [|p [|p' ps]]; simpl;
    [pick_state| |pick_state].
  destruct (env 2%nat) as [id2|e2]; simpl; pick_state.
Qed.

Lemma status_first env id0 db wid u uid amount w st :
  env 0%nat = Served id0 →
  withdrawal_row db wid w →
  wp_status u = Some st →
  ∃ s rest,
    states env
      (do* UpdateWithdrawal wid u in
       let* profile ← SelectProfile uid in
       do* UpdateProfile uid (balance_patch (p_balance profile + amount)) in
       Return success) db = s :: rest ∧
    withdrawal_status s wid st ∧ profiles s = profiles db.
Proof.
  intros H0 Hw Hst. unfold await_data. simpl. rewrite H0. simpl.
  destruct (answer _ _ _). eexists _, _. split; [done|]. split; [|done].
  eexists. split; [by apply withdrawal_row_update|]. simpl. by rewrite Hst.
Qed.

Lemma status_stays env id0 e db wid u uid amount w st :
  env 0%nat = Served id0 →
  env 1%nat = Refused e →
  withdrawal_row db wid w →
  wp_status u = Some st →
  ∃ db',
    run env
      (do* UpdateWithdrawal wid u in
       let* profile ← SelectProfile uid in
       do* UpdateProfile uid (balance_patch (p_balance profile + amount)) in
       Return success) db = (Rejected e, db') ∧
    withdrawal_status db' wid st ∧ profiles db' = profiles db.
Proof.
  intros H0 H1 Hw Hst. rewrite (run_update_withdrawal _ id0) by done.
  unfold await_data. rewrite run_await. unfold later. rewrite H1. simpl.
  eexists. split; [done|]. split; [|done].
  eexists. split; [by apply withdrawal_row_update|]. simpl. by rewrite Hst.
Qed.

(** C6 (as amended).  The status write and the balance write of a call are
    two requests made one after the other.  In [create] the [pending] row is
    inserted before the debit: in every state a reader can see while the call
    runs, either the profiles are as before or the new row is there and
    [pending].  In [reject] and [fail] the terminal status is written before
    the refund: in every such state, either the profiles are as before or the
    rows with the id already carry the terminal status; the state right after
    the first request shows the terminal status with the profiles as before,
    and when the next request is refused the call ends in that state. *)
Theorem status_and_balance_writes env db wid amount uid :
  (∀ net charges bank s,
     s ∈ states env (withdrawalService.create uid amount net charges bank) db →
     profiles s = profiles db ∨
     ∃ w, withdrawals s = w :: withdrawals db ∧
          w_status w = pending ∧ w_user_id w = uid ∧ w_amount w = amount) ∧
  (∀ note s,
     s ∈ states env (withdrawalService.reject wid amount uid note) db →
     profiles s = profiles db ∨
     Forall (λ w, w_id w = wid → w_status w = rejected) (withdrawals s)) ∧
  (∀ reason s,
     s ∈ states env (withdrawalService.fail wid amount uid reason) db →
     profiles s = profiles db ∨
     Forall (λ w, w_id w = wid → w_status w = failed) (withdrawals s)) ∧
  (∀ w, withdrawal_row db wid w → served (env 0%nat) →
     (∀ note, ∃ s rest,
        states env (withdrawalService.reject wid amount uid note) db = s :: rest ∧
        withdrawal_status s wid rejected ∧ profiles s = profiles db) ∧
     (∀ reason, ∃ s rest,
        states env (withdrawalService.fail wid amount uid reason) db = s :: rest ∧
        withdrawal_status s wid failed ∧ profiles s = profiles db) ∧
     (∀ e, env 1%nat = Refused e →
        (∀ note, ∃ db',
           run env (withdrawalService.reject wid amount uid note) db =
             (Rejected e, db') ∧
           withdrawal_status db' wid rejected ∧ profiles db' = profiles db) ∧
        (∀ reason, ∃ db',
           run env (withdrawalService.fail wid amount uid reason) db =
             (Rejected e, db') ∧
           withdrawal_status db' wid failed ∧ profiles db' = profiles db))).
Proof.
  split; [|split; [|split]].
  - intros net charges bank s. apply create_states.
  - intros note s. by apply status_then_credit_states.
  - intros reason s. by apply status_then_credit_states.
  - intros w Hw Hserved. destruct (env 0%nat) as [id0|] eqn:H0; [|done].
    split; [|split].
    + intros note. by eapply status_first.
    + intros reason. by eapply status_first.
    + intros e H1. split.
      * intros note. by eapply status_stays.
      * intros reason. by eapply status_stays.
Qed.

Lemma status_and_balance_writes_witness :
  ∃ db',
    run (down_at 1) (withdrawalService.reject "w1" 200 "u1" (Some "not eligible"))
      (ledger_with_payout processing) = (Rejected network_error, db') ∧
    withdrawal_status db' "w1" rejected ∧
    profiles db' = [with_balance 800 alice].
Proof.
  destruct (status_and_balance_writes (down_at 1) (ledger_with_payout processing)
              "w1" 200 "u1") as (_ & _ & _ & H).
  destruct (H (payout processing) eq_refl I) as (_ & _ & Hrefused).
  destruct (Hrefused network_error eq_refl) as [Hreject _].
  exact (Hreject (Some "not eligible")).
Defined.

(** C6 as stated fails: while a rejection runs, a reader can see the
    withdrawal [rejected] with the balance not yet refunded. *)
Lemma rejected_before_refund :
  ¬ (∀ env db wid amount uid note w p s,
       withdrawal_row db wid w → profile_row db uid p →
       s ∈ states env (withdrawalService.reject wid amount uid note) db →
       withdrawal_status s wid rejected →
       profile_row s uid (with_balance (p_balance p + amount) p)).
Proof.
  intros H.
  specialize (H quiet (ledger_with_payout processing) "w1" 200 "u1" None
                (payout processing) (with_balance 800 alice)
                (ledger_with_payout rejected) eq_refl eq_refl).
  assert (Hp : profile_row (ledger_with_payout rejected) "u1"
                 (with_balance 1000 alice)).
  { apply H.
    - vm_compute. left.
    - exists (payout rejected). by split. }
  vm_compute in Hp. discriminate Hp.
Qed.

(** ** Balances over the reachable states *)

Lemma where_eq_elem {Row} (key : Row → string) k r rest rows :
  where_eq key k rows = r :: rest → r ∈ rows.
Proof.
  intros H. assert (Hin : r ∈ where_eq key k rows) by (rewrite H; left).
  unfold where_eq in Hin. by apply list_elem_of_filter in Hin as [_ ?].
Qed.

Lemma balances_update ps uid u :
  Forall (λ p, (0 ≤ p_balance p)%Z) ps →
  from_option (λ b, (0 ≤ b)%Z) True (pp_balance u) →
  Forall (λ p, (0 ≤ p_balance p)%Z) (update_eq p_id uid (patch_profile u) ps).
Proof.
  intros Hps Hu. unfold update_eq. apply Forall_fmap.
  eapply Forall_impl; [exact Hps|]. intros p Hp. simpl.
  case_decide; [|done]. simpl. by destruct (pp_balance u).
Qed.

Lemma balance_of_selected db uid p rest :
  balances_non_negative db →
  where_eq p_id uid (profiles db) = p :: rest →
  (0 ≤ p_balance p)%Z.
Proof.
  intros Hdb Hsel. apply where_eq_elem in Hsel.
  unfold balances_non_negative in Hdb. rewrite Forall_forall in Hdb. by apply Hdb.
Qed.

Lemma call_keeps_balances env c db :
  non_negative_amounts c →
  balances_non_negative db →
  balances_non_negative (run env (perform c) db).2.
Proof.
  intros Hc Hdb. destruct c; unfold_services; run_cases; simpl; try done.
  all: unfold balances_non_negative; simpl.
  all: try (apply balances_update; [done|simpl]).
  all: try done.
  all: try (pose proof (balance_of_selected _ _ _ _ Hdb Hsel); simpl in Hc; lia).
Qed.

(** C8 (as amended).  Starting from the tables of schema.sql, through
    sign-ups and any sequence of calls in which the amounts credited
    ([depositService.approve], [withdrawalService.reject] and [fail]) and the
    balances written directly ([updateBalance], a [balance] key in
    [updateProfile]) are not negative, every balance is non-negative,
    whatever the backend does.  [withdrawalService.create] needs no such
    condition: it only debits an amount the balance covers. *)
Theorem balances_stay_non_negative db :
  reachable non_negative_amounts db → balances_non_negative db.
Proof.
  induction 1 as [|db id email name role _ IH|db env c _ IH Hc].
  - apply Forall_nil_2.
  - unfold handle_new_user. destruct (_ || _); [done|].
    unfold balances_non_negative. simpl. by apply Forall_cons_2.
  - by apply call_keeps_balances.
Qed.

Lemma balances_stay_non_negative_witness : balances_non_negative after_top_up.
Proof.
  apply balances_stay_non_negative.
  apply reachable_call; [apply reachable_sign_up, reachable_initial|].
  simpl. lia.
Defined.

(** C8 as stated fails: [profileService.updateBalance] writes whatever
    balance it is given. *)
Lemma negative_balance_reachable :
  ¬ (∀ db, reachable (λ _, True) db → balances_non_negative db).
Proof.
  intros H.
  specialize (H (run quiet (perform (ProfileUpdateBalance "u1" (-1))) after_sign_up).2).
  apply Forall_inv in H.
  - simpl in H. lia.
  - apply reachable_call; [apply reachable_sign_up, reachable_initial|done].
Qed.

(** ** Errors of the store *)

Lemma propagates_bind {A B} (m : Async A) (f : A → Async B) :
  propagates m → (∀ a, propagates (f a)) → propagates (bind m f).
Proof.
  intros Hm Hf. induction Hm as [a|e|R q k Hfail _ IH]; simpl.
  - apply Hf.
  - apply propagates_throw.
  - apply propagates_await; [|done]. intros e. by rewrite Hfail.
Qed.

Lemma propagates_surfaces {A} (m : Async A) :
  propagates m →
  ∀ env db e,
    e ∈ store_errors env m db → (run env m db).1 = Rejected e.
Proof.
  induction 1 as [a|e'|R q k Hfail _ IH]; intros env db e; simpl.
  - by intros ?%elem_of_nil.
  - by intros ?%elem_of_nil.
  - destruct (answer (env 0%nat) q db) as [[x|e'] db'].
    + apply IH.
    + rewrite Hfail. simpl. by intros [->|?%elem_of_nil]%elem_of_cons.
Qed.

Lemma services_propagate c : (∀ key, c ≠ SettingsGet key) → propagates (perform c).
Proof.
  intros Hc. destruct c; unfold_services; try (by propagate).
  by destruct (Hc key).
Qed.

(** C9 (as amended).  Every service function except [settingsService.get]
    hands the errors of the store to its caller: whenever a request of the
    call comes back with an error, the call is rejected with that very error.
    [settingsService.get] does not: when its request comes back with an
    error it resolves to [null] and leaves the store as it was. *)
Theorem store_errors_surface env db :
  (∀ c, (∀ key, c ≠ SettingsGet key) →
        ∀ e, e ∈ store_errors env (perform c) db →
             (run env (perform c) db).1 = Rejected e) ∧
  (∀ key e,
     e ∈ store_errors env (settingsService.get key) db →
     run env (settingsService.get key) db = (Resolved None, db)).
Proof.
  split.
  - intros c Hc. by apply propagates_surfaces, services_propagate.
  - intros key e. unfold settingsService.get. simpl.
    destruct (env 0%nat) as [id|e0]; simpl; [|done].
    destruct (single _); simpl; [by intros ?%elem_of_nil|done].
Qed.

Lemma store_errors_surface_witness :
  (run (down_at 1) (perform (DepositApprove "d1" "u1" 500))
     (ledger_with_top_up DepositPending)).1 = Rejected network_error.
Proof.
  destruct (store_errors_surface (down_at 1) (ledger_with_top_up DepositPending))
    as [H _].
  apply H; [done|]. vm_compute. left.
Defined.

(** C9 as stated fails: [settingsService.get] turns an error of the store
    into [null]. *)
Lemma settings_get_swallows_errors :
  ¬ (∀ env db key e,
       e ∈ store_errors env (settingsService.get key) db →
       ∃ db', run env (settingsService.get key) db = (Rejected e, db')).
Proof.
  intros H.
  destruct (H (down_at 0) ledger "whatsapp_number" network_error) as [db' Hrun].
  - vm_compute. left.
  - vm_compute in Hrun. discriminate Hrun.
Qed.

(** ** Accounts on hold *)

Lemma withdrawal_create_on_hold env id db uid p amount net charges bank :
  env 0%nat = Served id →
  profile_row db uid p →
  p_account_status p = hold →
  run env (withdrawalService.create uid amount net charges bank) db =
    (Rejected AccountOnHold, db).
Proof.
  intros H0 Hp Hhold. unfold withdrawalService.create, await_data.
  rewrite run_await, H0. simpl. rewrite Hp. simpl.
  by rewrite decide_True.
Qed.

(** C4.  On Alice's account, which is on hold, [withdrawalService.create] is
    rejected with [AccountOnHold] and records nothing, but
    [depositService.create] goes through: it never reads the profile, the
    deposit row is inserted as [DepositPending] and returned. *)
Theorem deposit_create_on_hold :
  p_account_status alice_on_hold = hold ∧
  profile_row ledger_on_hold "u1" alice_on_hold ∧
  run quiet (withdrawalService.create "u1" 200 150 50 hdfc) ledger_on_hold =
    (Rejected AccountOnHold, ledger_on_hold) ∧
  run quiet (depositService.create "u1" 500 None) ledger_on_hold =
    (Resolved (mkDeposit "id0" "u1" 500 "upi" DepositPending
                 None None None None None None None),
     set_deposits
       [mkDeposit "id0" "u1" 500 "upi" DepositPending None None None None None None None]
       ledger_on_hold).
Proof.
  split; [done|]. split; [done|]. split.
  - by apply (withdrawal_create_on_hold quiet "id0" ledger_on_hold "u1" alice_on_hold).
  - reflexivity.
Qed.

(** * Further facts about the services *)

(** ** withdrawalService.create *)




(** X2.  A withdrawal that is created and then rejected, or failed, with the
    amount it was created with leaves the profile exactly as it was before
    the request. *)
Theorem create_then_refund_restores env env' db uid p id amount net charges bank :
  responsive env → responsive env' →
  env 1%nat = Served id →
  where_eq w_id id (withdrawals db) = [] →
  profile_row db uid p →
  p_account_status p = active →
  (amount ≤ p_balance p)%Z →
  let db1 := (run env (withdrawalService.create uid amount net charges bank) db).2 in
  (∀ note, ∃ db2,
     run env' (withdrawalService.reject id amount uid note) db1 =
       (Resolved success, db2) ∧
     withdrawal_status db2 id rejected ∧ profile_row db2 uid p) ∧
  (∀ reason, ∃ db2,
     run env' (withdrawalService.fail id amount uid reason) db1 =
       (Resolved success, db2) ∧
     withdrawal_status db2 id failed ∧ profile_row db2 uid p).
Proof.
  intros Hresp Hresp' H1 Hfresh Hp Hactive Hle.
  destruct (create_served env db uid p id amount net charges bank)
    as (db1 & Hrun & Hw & Hp1); [done..|].
  rewrite Hrun. simpl.
  assert (Hback :
    with_balance (p_balance (with_balance (p_balance p - amount) p) + amount)
      (with_balance (p_balance p - amount) p) = p).
  { rewrite with_balance_twice. simpl.
    replace (p_balance p - amount + amount) with (p_balance p) by lia.
    apply with_balance_same. }
  split.
  - intros note.
    destruct (reject_served env' db1 id amount uid note _ _ Hresp' Hw Hp1)
      as (db2 & Hrun2 & Hs & Hp2).
    rewrite Hback in Hp2. by exists db2.
  - intros reason.
    destruct (fail_served env' db1 id amount uid reason _ _ Hresp' Hw Hp1)
      as (db2 & w2 & Hrun2 & Hw2 & Hs & _ & Hp2).
    rewrite Hback in Hp2. exists db2. split; [done|]. split; [by exists w2|done].
Qed.

Lemma create_then_refund_restores_witness :
  let db1 := (run quiet (withdrawalService.create "u1" 375 325 50 hdfc) ledger).2 in
  (∀ note, ∃ db2,
     run quiet (withdrawalService.reject "id1" 375 "u1" note) db1 =
       (Resolved success, db2) ∧
     withdrawal_status db2 "id1" rejected ∧ profile_row db2 "u1" alice) ∧
  (∀ reason, ∃ db2,
     run quiet (withdrawalService.fail "id1" 375 "u1" reason) db1 =
       (Resolved success, db2) ∧
     withdrawal_status db2 "id1" failed ∧ profile_row db2 "u1" alice).
Proof.
  apply (create_then_refund_restores quiet quiet ledger "u1" alice "id1" 375 325 50 hdfc
           quiet_responsive quiet_responsive); [reflexivity..|simpl; lia].
Defined.

(** X3.  When the store refuses the balance write that follows the insert, the
    call is rejected with the store's error, yet the [pending] row stays
    recorded and no balance has been debited. *)
Theorem create_refused_debit env db uid p id0 id e amount net charges bank :
  env 0%nat = Served id0 →
  env 1%nat = Served id →
  env 2%nat = Refused e →
  where_eq w_id id (withdrawals db) = [] →
  profile_row db uid p →
  p_account_status p = active →
  (amount ≤ p_balance p)%Z →
  ∃ db' w,
    run env (withdrawalService.create uid amount net charges bank) db =
      (Rejected e, db') ∧
    withdrawal_row db' id w ∧ w_status w = pending ∧ w_amount w = amount ∧
    w_user_id w = uid ∧
    profiles db' = profiles db.
Proof.
  intros H0 H1 H2 Hfresh Hp Hactive Hle.
  unfold withdrawalService.create, await_data.
  rewrite run_await, H0. simpl. rewrite Hp. simpl.
  rewrite decide_False by (by rewrite Hactive).
  rewrite decide_False by lia.
  rewrite run_await. unfold later. rewrite H1. simpl.
  unfold insert_withdrawal.
  rewrite (has_key_false w_id) by done.
  rewrite (has_key_true p_id _ _ _ _ Hp). simpl. rewrite H2. simpl.
  eexists _, _. split; [done|]. split.
  - unfold withdrawal_row. simpl. rewrite where_eq_cons, decide_True by done.
    by rewrite Hfresh.
  - done.
Qed.

Lemma create_refused_debit_witness :
  ∃ db' w,
    run (down_at 2) (withdrawalService.create "u1" 200 150 50 hdfc) ledger =
      (Rejected network_error, db') ∧
    withdrawal_row db' "id1" w ∧ w_status w = pending ∧ w_amount w = 200 ∧
    w_user_id w = "u1" ∧
    profiles db' = [alice].
Proof.
  apply (create_refused_debit (down_at 2) ledger "u1" alice "id0" "id1" network_error
           200 150 50 hdfc); [reflexivity..|simpl; lia].
Defined.

(** X4.  For a user id that no profile row carries (or that several carry) the
    request is rejected, with the store's [.single()] error when the read is
    served, and nothing is recorded. *)
Theorem create_without_profile env db uid amount net charges bank :
  (∀ p, ¬ profile_row db uid p) →
  run env (withdrawalService.create uid amount net charges bank) db =
    (Rejected
       match env 0%nat with
       | Refused e => e
       | Served _ => PGRST116
       end, db).
Proof.
  intros Hnone. unfold withdrawalService.create, await_data.
  rewrite run_await. destruct (env 0%nat) as [id|e]; simpl; [|done].
  destruct (where_eq p_id uid (profiles db)) as [|p [|p' ps]] eqn:Hsel; simpl;
    [done| |done].
  by destruct (Hnone p).
Qed.

Lemma create_without_profile_witness :
  run quiet (withdrawalService.create "u2" 200 150 50 hdfc) ledger =
    (Rejected PGRST116, ledger).
Proof.
  apply (create_without_profile quiet ledger "u2" 200 150 50 hdfc).
  intros p Hp. vm_compute in Hp. discriminate Hp.
Defined.

(** ** depositService *)

Lemma update_eq_no_match {Row} (key : Row → string) k f (rows : list Row) :
  where_eq key k rows = [] → update_eq key k f rows = rows.
Proof.
  induction rows as [|r rows IH]; [done|].
  rewrite where_eq_cons. unfold update_eq in *. rewrite fmap_cons.
  destruct (decide (key r = k)); [done|]. intros H. by rewrite IH.
Qed.

(** X5.  A served deposit request that carries no screenshot, for a user who has
    a profile, records one [DepositPending] row with method [upi] and the
    amount it was given, whatever that amount and whatever the account
    status; the profiles, withdrawals and settings stay as they were. *)
Theorem deposit_create_records env id db uid p amount :
  env 0%nat = Served id →
  where_eq d_id id (deposits db) = [] →
  profile_row db uid p →
  ∃ db',
    run env (depositService.create uid amount None) db =
      (Resolved (mkDeposit id uid amount "upi" DepositPending
                   None None None None None None None), db') ∧
    deposits db' =
      mkDeposit id uid amount "upi" DepositPending None None None None None None None
        :: deposits db ∧
    profiles db' = profiles db ∧ withdrawals db' = withdrawals db ∧
    settings db' = settings db.
Proof.
  intros H0 Hfresh Hp. unfold depositService.create, await_data.
  rewrite run_await, H0. simpl. unfold insert_deposit. simpl.
  rewrite (has_key_false d_id) by done.
  rewrite (has_key_true p_id _ _ _ _ Hp). simpl. by eexists.
Qed.

Lemma deposit_create_records_witness :
  ∃ db',
    run quiet (depositService.create "u1" (-500) None) ledger =
      (Resolved (mkDeposit "id0" "u1" (-500) "upi" DepositPending
                   None None None None None None None), db') ∧
    deposits db' =
      [mkDeposit "id0" "u1" (-500) "upi" DepositPending
         None None None None None None None] ∧
    profiles db' = [alice] ∧ withdrawals db' = [] ∧ settings db' = settings initial.
Proof.
  apply (deposit_create_records quiet "id0" ledger "u1" alice (-500)); reflexivity.
Defined.



(** X7.  When the user id given to [depositService.approve] has no profile row,
    the call is rejected with the store's [.single()] error after the deposit
    has already been marked approved: the status stays, no balance changes. *)
Theorem deposit_approve_without_profile env id0 id1 db did d uid amount :
  env 0%nat = Served id0 →
  env 1%nat = Served id1 →
  deposit_row db did d →
  (∀ p, ¬ profile_row db uid p) →
  ∃ db',
    run env (depositService.approve did uid amount) db = (Rejected PGRST116, db') ∧
    deposit_status db' did DepositApproved ∧
    profiles db' = profiles db.
Proof.
  intros H0 H1 Hd Hnone. unfold depositService.approve.
  rewrite (run_update_deposit _ id0) by done.
  unfold await_data. rewrite run_await. unfold later. rewrite H1. simpl.
  destruct (where_eq p_id uid (profiles db)) as [|p [|p' ps]] eqn:Hsel; simpl.
  - eexists. split; [done|]. split; [|done].
    eexists. split; [by apply deposit_row_update|done].
  - by destruct (Hnone p).
  - eexists. split; [done|]. split; [|done].
    eexists. split; [by apply deposit_row_update|done].
Qed.

Lemma deposit_approve_without_profile_witness :
  ∃ db',
    run quiet (depositService.approve "d1" "u2" 500) (ledger_with_top_up DepositPending)
      = (Rejected PGRST116, db') ∧
    deposit_status db' "d1" DepositApproved ∧
    profiles db' = [alice].
Proof.
  apply (deposit_approve_without_profile quiet "id0" "id1"
           (ledger_with_top_up DepositPending) "d1" (top_up DepositPending) "u2" 500);
    try reflexivity.
  intros p Hp. vm_compute in Hp. discriminate Hp.
Defined.

(** X8.  A served [depositService.reject] marks the deposit rejected and changes
    nothing else of the row except the admin note: a note that is given
    replaces the old one, and when none is given the old note stays.  No
    profile changes. *)
Theorem deposit_reject_note env id0 db did d note :
  env 0%nat = Served id0 →
  deposit_row db did d →
  ∃ db' d',
    run env (depositService.reject did note) db = (Resolved success, db') ∧
    deposit_row db' did d' ∧
    d_status d' = DepositRejected ∧
    d_admin_note d' = match note with
                      | Some n => Some n
                      | None => d_admin_note d
                      end ∧
    d_amount d' = d_amount d ∧ d_user_id d' = d_user_id d ∧
    profiles db' = profiles db.
Proof.
  intros H0 Hd. unfold depositService.reject.
  rewrite (run_update_deposit _ id0) by done. simpl.
  eexists _, _. split; [done|]. split; [by apply deposit_row_update|].
  simpl. by destruct note.
Qed.

Lemma deposit_reject_note_witness :
  ∃ db' d',
    run quiet (depositService.reject "d1" None) (ledger_with_top_up DepositPending) =
      (Resolved success, db') ∧
    deposit_row db' "d1" d' ∧
    d_status d' = DepositRejected ∧
    d_admin_note d' = None ∧
    d_amount d' = 500 ∧ d_user_id d' = "u1" ∧
    profiles db' = [alice].
Proof.
  apply (deposit_reject_note quiet "id0" (ledger_with_top_up DepositPending) "d1"
           (top_up DepositPending) None); reflexivity.
Defined.

(** ** settingsService *)

Section TableFactsOn.
Context {Row : Type} (key : Row → string).
Implicit Types (rows : list Row) (f : Row → Row) (k : string).

Lemma where_update_eq_on k f rows :
  (∀ r, key r = k → key (f r) = k) →
  where_eq key k (update_eq key k f rows) = f <$> where_eq key k rows.
Proof.
  intros Hkey. induction rows as [|r rows IH]; [done|].
  unfold update_eq in *. rewrite fmap_cons, !where_eq_cons.
  destruct (decide (key r = k)) as [Hk|Hk].
  - rewrite decide_True by auto. by rewrite fmap_cons, IH.
  - by rewrite decide_False.
Qed.

Lemma where_update_ne_on k k' f rows :
  k ≠ k' → (∀ r, key r = k → key (f r) = k) →
  where_eq key k' (update_eq key k f rows) = where_eq key k' rows.
Proof.
  intros Hne Hkey. induction rows as [|r rows IH]; [done|].
  unfold update_eq in *. rewrite fmap_cons, !where_eq_cons.
  destruct (decide (key r = k)) as [Hk|Hk].
  - rewrite IH. rewrite !decide_False; [done|congruence|].
    rewrite Hkey by done. congruence.
  - by rewrite IH.
Qed.
End TableFactsOn.

Lemma upsert_setting_row k v ss :
  (length (where_eq s_key k ss) ≤ 1)%nat →
  where_eq s_key k (upsert_setting k v ss) = [mkSetting k v].
Proof.
  intros Hlen. unfold upsert_setting.
  destruct (where_eq s_key k ss) as [|s [|s' rest]] eqn:Hsel.
  - rewrite (has_key_false s_key) by done.
    rewrite where_eq_cons, decide_True by done. by rewrite Hsel.
  - rewrite (has_key_true s_key _ _ _ _ Hsel).
    rewrite where_update_eq_on by done. by rewrite Hsel.
  - simpl in Hlen. lia.
Qed.

Lemma upsert_setting_other k k' v ss :
  k ≠ k' → where_eq s_key k' (upsert_setting k v ss) = where_eq s_key k' ss.
Proof.
  intros Hne. unfold upsert_setting. destruct (has_key s_key k ss).
  - by apply where_update_ne_on.
  - by rewrite where_eq_cons, decide_False.
Qed.

(** The object [getAll] builds holds, for each key other than [__proto__],
    the value of the last row of the answer that carries the key. *)
Lemma settings_record_lookup (data : list Setting) (acc : JsObject) k :
  k ≠ "__proto__" →
  foldl (λ settings item, assign (s_key item) (s_value item) settings) acc data !! k =
    from_option (λ s, Some (s_value s)) (acc !! k) (last (where_eq s_key k data)).
Proof.
  intros Hk. revert acc. induction data as [|s data IH]; intros acc; [done|].
  simpl. rewrite IH, where_eq_cons. unfold assign.
  destruct (decide (s_key s = k)) as [<-|Hne].
  - destruct (decide (s_key s = "__proto__")); [done|]. rewrite lookup_insert_eq.
    destruct (where_eq s_key (s_key s) data) as [|s' rest] eqn:Hsel; [done|].
    rewrite !last_cons. by destruct (last rest).
  - case_decide; [done|]. by rewrite lookup_insert_ne by done.
Qed.

(** It never holds [__proto__] as a property of its own. *)
Lemma settings_record_proto (data : list Setting) (acc : JsObject) :
  foldl (λ settings item, assign (s_key item) (s_value item) settings) acc data
    !! "__proto__" = acc !! "__proto__".
Proof.
  revert acc. induction data as [|s data IH]; intros acc; [done|].
  simpl. rewrite IH. unfold assign. case_decide; [done|].
  by rewrite lookup_insert_ne by done.
Qed.

(** X9.  Writing a setting and reading it back: after a served [update], [get]
    of the same key resolves to the value written, provided the key had at
    most one row before (the table's UNIQUE constraint); the answer of [get]
    for any other key is what it was before the write. *)
Theorem settings_update_then_get env env' id id' db key value :
  env 0%nat = Served id →
  env' 0%nat = Served id' →
  (length (where_eq s_key key (settings db)) ≤ 1)%nat →
  ∃ db1,
    run env (settingsService.update key value) db = (Resolved success, db1) ∧
    run env' (settingsService.get key) db1 = (Resolved (Some value), db1) ∧
    (∀ key', key ≠ key' →
       (run env' (settingsService.get key') db1).1 =
       (run env' (settingsService.get key') db).1) ∧
    profiles db1 = profiles db ∧ deposits db1 = deposits db ∧
    withdrawals db1 = withdrawals db.
Proof.
  intros H0 H0' Hlen. unfold settingsService.update, settingsService.get, await_data.
  rewrite run_await, H0. simpl. eexists. split; [done|]. split; [|split; [|done]].
  - rewrite H0'. simpl. by rewrite upsert_setting_row by done.
  - intros key' Hne. rewrite H0'. simpl. rewrite upsert_setting_other by done.
    by destruct (single _).
Qed.

Lemma settings_update_then_get_witness :
  ∃ db1,
    run quiet (settingsService.update "withdrawal_charges" "75") ledger =
      (Resolved success, db1) ∧
    run quiet (settingsService.get "withdrawal_charges") db1 =
      (Resolved (Some "75"), db1) ∧
    (∀ key', "withdrawal_charges" ≠ key' →
       (run quiet (settingsService.get key') db1).1 =
       (run quiet (settingsService.get key') ledger).1) ∧
    profiles db1 = [alice] ∧ deposits db1 = [] ∧ withdrawals db1 = [].
Proof.
  apply (settings_update_then_get quiet quiet "id0" "id0" ledger "withdrawal_charges" "75");
    [reflexivity..|simpl; lia].
Defined.

(** X10.  [get] and [getAll] agree on every key that is not a name of
    [Object.prototype]: for such a key with at most one row, a served [get]
    resolves to the row's value, which is what reading the key from the
    object of a served [getAll] yields, and to [null] when the key has no
    row, where the object yields [undefined].  On the key [__proto__] they
    part: whatever rows there are, the object has no such property of its
    own, and reading it yields what [Object.prototype] holds.  Both calls
    leave the store alone. *)
Theorem settings_reads_agree env env' id id' db :
  env 0%nat = Served id →
  env' 0%nat = Served id' →
  ∃ object,
    run env settingsService.getAll db = (Resolved object, db) ∧
    (∀ key,
       key ∉ Object_prototype →
       (length (where_eq s_key key (settings db)) ≤ 1)%nat →
       ∃ value,
         run env' (settingsService.get key) db = (Resolved value, db) ∧
         value = s_value <$> head (where_eq s_key key (settings db)) ∧
         member object key = from_option Own Undefined value) ∧
    member object "__proto__" = Inherited "__proto__".
Proof.
  intros H0 H0'. unfold settingsService.getAll, settingsService.get, await_data.
  rewrite run_await, H0. cbn [answer exec fst snd run]. eexists. split; [done|].
  split.
  - intros key Hkey Hlen. unfold member.
    rewrite settings_record_lookup
      by (intros ->; apply Hkey; unfold Object_prototype; set_solver).
    cbn [run]. rewrite H0'. cbn [answer exec fst snd].
    destruct (where_eq s_key key (settings db)) as [|s [|s' rest]].
    + eexists. split; [done|]. split; [done|].
      rewrite lookup_empty. cbn [last from_option]. by rewrite bool_decide_false.
    + eexists. split; [done|]. by split.
    + simpl in Hlen. lia.
  - unfold member. by rewrite settings_record_proto, lookup_empty.
Qed.

Lemma settings_reads_agree_witness :
  ∃ object,
    run quiet settingsService.getAll ledger = (Resolved object, ledger) ∧
    run quiet (settingsService.get "whatsapp_number") ledger =
      (Resolved (Some "919999999999"), ledger) ∧
    member object "whatsapp_number" = Own "919999999999" ∧
    run quiet (settingsService.get "support_email") ledger = (Resolved None, ledger) ∧
    member object "support_email" = Undefined ∧
    member object "__proto__" = Inherited "__proto__".
Proof.
  destruct (settings_reads_agree quiet quiet "id0" "id0" ledger eq_refl eq_refl)
    as (object & Hrun & Hm & Hproto).
  exists object. split; [exact Hrun|].
  destruct (Hm "whatsapp_number") as (v & Hget & -> & Hmember);
    [refine (bool_decide_unpack _ _); by vm_compute|simpl; lia|].
  destruct (Hm "support_email") as (v' & Hget' & -> & Hmember');
    [refine (bool_decide_unpack _ _); by vm_compute|simpl; lia|].
  split; [exact Hget|]. split; [exact Hmember|]. split; [exact Hget'|].
  split; [exact Hmember'|exact Hproto].
Defined.

Lemma or_default_non_empty v d : d ≠ "" → or_default v d ≠ "".
Proof. intros Hd. unfold or_default. destruct v as [s|]; [|done]. by case_decide. Qed.

(** X11.  Whatever the settings hold, no field of the bank details that
    [getBankDetails] resolves to is empty (a missing or empty setting is
    replaced by the built-in default), and the store is left alone. *)
Theorem bank_details_never_empty env db b db' :
  run env settingsService.getBankDetails db = (Resolved b, db') →
  db' = db ∧
  bankName b ≠ "" ∧ accountName b ≠ "" ∧ accountNumber b ≠ "" ∧
  ifscCode b ≠ "" ∧ branch b ≠ "".
Proof.
  unfold settingsService.getBankDetails, settingsService.getAll, await_data. simpl.
  destruct (env 0%nat) as [id|e]; simpl; [|done].
  intros [= <- <-]. simpl. repeat split; by apply or_default_non_empty.
Qed.

Lemma bank_details_never_empty_witness :
  ∃ b,
    run quiet settingsService.getBankDetails (set_settings [mkSetting "bank_name" ""] ledger)
      = (Resolved b, set_settings [mkSetting "bank_name" ""] ledger) ∧
    bankName b ≠ "" ∧ accountName b ≠ "" ∧ accountNumber b ≠ "" ∧
    ifscCode b ≠ "" ∧ branch b ≠ "".
Proof.
  eexists. split; [reflexivity|].
  eapply (bank_details_never_empty quiet). reflexivity.
Defined.

(** The five rows [updateBankDetails] leaves behind. *)
Lemma bank_rows_written b ss :
  Forall (λ key, (length (where_eq s_key key ss) ≤ 1)%nat) bank_keys →
  let written :=
    upsert_setting "bank_branch" (branch b)
      (upsert_setting "ifsc_code" (ifscCode b)
         (upsert_setting "account_number" (accountNumber b)
            (upsert_setting "account_name" (accountName b)
               (upsert_setting "bank_name" (bankName b) ss)))) in
  where_eq s_key "bank_name" written = [mkSetting "bank_name" (bankName b)] ∧
  where_eq s_key "account_name" written = [mkSetting "account_name" (accountName b)] ∧
  where_eq s_key "account_number" written =
    [mkSetting "account_number" (accountNumber b)] ∧
  where_eq s_key "ifsc_code" written = [mkSetting "ifsc_code" (ifscCode b)] ∧
  where_eq s_key "bank_branch" written = [mkSetting "bank_branch" (branch b)].
Proof.
  intros Hkeys written. unfold written, bank_keys in *. decompose_Forall_hyps.
  repeat split;
    repeat (rewrite upsert_setting_other by (intros ?; discriminate));
    apply upsert_setting_row;
    repeat (rewrite upsert_setting_other by (intros ?; discriminate)); done.
Qed.

(** X12.  Writing the bank details and reading them back: after a served
    [updateBankDetails], [getBankDetails] resolves to the very details
    written, provided none of their fields is empty and each of the five keys
    had at most one row before. *)
Theorem bank_details_round_trip env env' db b :
  responsive env →
  responsive env' →
  Forall (λ key, (length (where_eq s_key key (settings db)) ≤ 1)%nat) bank_keys →
  bankName b ≠ "" → accountName b ≠ "" → accountNumber b ≠ "" →
  ifscCode b ≠ "" → branch b ≠ "" →
  ∃ db1,
    run env (settingsService.updateBankDetails b) db = (Resolved success, db1) ∧
    run env' settingsService.getBankDetails db1 = (Resolved b, db1) ∧
    profiles db1 = profiles db.
Proof.
  intros Hresp Hresp' Hkeys Hb1 Hb2 Hb3 Hb4 Hb5.
  destruct (responsive_served env 0 Hresp) as [i0 H0].
  destruct (responsive_served env 1 Hresp) as [i1 H1].
  destruct (responsive_served env 2 Hresp) as [i2 H2].
  destruct (responsive_served env 3 Hresp) as [i3 H3].
  destruct (responsive_served env 4 Hresp) as [i4 H4].
  destruct (responsive_served env' 0 Hresp') as [j0 H0'].
  destruct (bank_rows_written b (settings db) Hkeys) as (Hk1 & Hk2 & Hk3 & Hk4 & Hk5).
  unfold settingsService.updateBankDetails, settingsService.update, await_data.
  simpl. rewrite H0. simpl. unfold later. rewrite H1. simpl. unfold later.
  rewrite H2. simpl. unfold later. rewrite H3. simpl. unfold later.
  rewrite H4. simpl.
  eexists. split; [done|]. split; [|done].
  unfold settingsService.getBankDetails, settingsService.getAll, await_data.
  rewrite H0'.
  cbn [answer exec fst snd bind run settings set_settings].
  rewrite !settings_record_lookup by done. rewrite Hk1, Hk2, Hk3, Hk4, Hk5.
  cbn [last from_option s_value].
  unfold or_default. rewrite !decide_False by done.
  by destruct b.
Qed.

Lemma bank_details_round_trip_witness :
  ∃ db1,
    run quiet (settingsService.updateBankDetails nabil) ledger = (Resolved success, db1) ∧
    run quiet settingsService.getBankDetails db1 = (Resolved nabil, db1) ∧
    profiles db1 = [alice].
Proof.
  apply (bank_details_round_trip quiet quiet ledger nabil quiet_responsive
           quiet_responsive); try done.
  repeat constructor; simpl; lia.
Defined.

(** X13.  [updateBankDetails] writes its five settings one after the other: when
    the store refuses the third write, the call is rejected with the store's
    error, the bank name and account name are already replaced, and the
    account number, IFSC code and branch are still the old ones. *)
Theorem bank_details_partial_update env id0 id1 e db b :
  env 0%nat = Served id0 →
  env 1%nat = Served id1 →
  env 2%nat = Refused e →
  (length (where_eq s_key "bank_name" (settings db)) ≤ 1)%nat →
  (length (where_eq s_key "account_name" (settings db)) ≤ 1)%nat →
  ∃ db1,
    run env (settingsService.updateBankDetails b) db = (Rejected e, db1) ∧
    where_eq s_key "bank_name" (settings db1) = [mkSetting "bank_name" (bankName b)] ∧
    where_eq s_key "account_name" (settings db1) =
      [mkSetting "account_name" (accountName b)] ∧
    where_eq s_key "account_number" (settings db1) =
      where_eq s_key "account_number" (settings db) ∧
    where_eq s_key "ifsc_code" (settings db1) = where_eq s_key "ifsc_code" (settings db) ∧
    where_eq s_key "bank_branch" (settings db1) =
      where_eq s_key "bank_branch" (settings db).
Proof.
  intros H0 H1 H2 Hl1 Hl2.
  unfold settingsService.updateBankDetails, settingsService.update, await_data.
  simpl. rewrite H0. simpl. unfold later. rewrite H1. simpl. unfold later.
  rewrite H2. simpl.
  eexists. split; [done|]. simpl.
  repeat split;
    repeat (rewrite upsert_setting_other by (intros ?; discriminate));
    try done; apply upsert_setting_row;
    repeat (rewrite upsert_setting_other by (intros ?; discriminate)); done.
Qed.

Lemma bank_details_partial_update_witness :
  ∃ db1,
    run (down_at 2) (settingsService.updateBankDetails nabil) ledger =
      (Rejected network_error, db1) ∧
    where_eq s_key "bank_name" (settings db1) = [mkSetting "bank_name" "Nabil Bank"] ∧
    where_eq s_key "account_name" (settings db1) =
      [mkSetting "account_name" "TradeX Nepal Pvt Ltd"] ∧
    where_eq s_key "account_number" (settings db1) =
      [mkSetting "account_number" "1234567890123456"] ∧
    where_eq s_key "ifsc_code" (settings db1) = [mkSetting "ifsc_code" "SBIN0001234"] ∧
    where_eq s_key "bank_branch" (settings db1) =
      [mkSetting "bank_branch" "Main Branch, Mumbai"].
Proof.
  apply (bank_details_partial_update (down_at 2) "id0" "id1" network_error ledger nabil);
    [reflexivity..|simpl; lia|simpl; lia].
Defined.

(** ** profileService *)

Lemma set_profiles_same db : set_profiles (profiles db) db = db.
Proof. by destruct db. Qed.

Lemma run_update_profile {A} env id0 db uid u (k : Async A) :
  env 0%nat = Served id0 →
  run env (do* UpdateProfile uid u in k) db =
    run (later env) k
      (set_profiles (update_eq p_id uid (patch_profile u) (profiles db)) db).
Proof. intros H. unfold await_data. by rewrite run_await, H. Qed.

(** A served [setAccountStatus] writes the status and touches nothing of
    the profile but the hold reason: putting on hold with a reason stores the
    reason, putting on hold without one keeps the reason that was there, and
    setting [active] clears it. *)
Lemma set_account_status_reason env id0 db uid p status reason :
  env 0%nat = Served id0 →
  profile_row db uid p →
  ∃ db' p',
    run env (profileService.setAccountStatus uid status reason) db =
      (Resolved success, db') ∧
    profile_row db' uid p' ∧
    p_account_status p' = status ∧
    p_hold_reason p' =
      match status, reason with
      | hold, Some r => Some r
      | hold, None => p_hold_reason p
      | active, _ => None
      end ∧
    p_balance p' = p_balance p ∧ p_kyc_status p' = p_kyc_status p ∧
    p_role p' = p_role p ∧
    withdrawals db' = withdrawals db ∧ deposits db' = deposits db.
Proof.
  intros H0 Hp. unfold profileService.setAccountStatus.
  rewrite (run_update_profile _ id0) by done. simpl.
  eexists _, _. split; [done|]. split; [by apply profile_row_update|].
  simpl. by destruct status, reason.
Qed.

(** X14.  Hold and release: once [setAccountStatus] has put the account on hold,
    [withdrawalService.create] is turned down with [AccountOnHold] and
    records nothing; once the status is set back to [active] the same request
    goes through and debits the balance. *)
Theorem hold_then_release env1 env2 env3 env4 db uid p id reason amount net charges bank :
  responsive env1 → responsive env2 → responsive env3 → responsive env4 →
  env4 1%nat = Served id →
  where_eq w_id id (withdrawals db) = [] →
  profile_row db uid p →
  (amount ≤ p_balance p)%Z →
  ∃ db1 db2 db3 w p3,
    run env1 (profileService.setAccountStatus uid hold reason) db =
      (Resolved success, db1) ∧
    run env2 (withdrawalService.create uid amount net charges bank) db1 =
      (Rejected AccountOnHold, db1) ∧
    run env3 (profileService.setAccountStatus uid active None) db1 =
      (Resolved success, db2) ∧
    run env4 (withdrawalService.create uid amount net charges bank) db2 =
      (Resolved w, db3) ∧
    withdrawal_row db3 id w ∧ w_status w = pending ∧ w_amount w = amount ∧
    profile_row db3 uid p3 ∧
    p_balance p3 = p_balance p - amount ∧
    p_account_status p3 = active ∧ p_hold_reason p3 = None.
Proof.
  intros Hr1 Hr2 Hr3 Hr4 Hid Hfresh Hp Hle.
  destruct (responsive_served env1 0 Hr1) as [i1 H1].
  destruct (responsive_served env2 0 Hr2) as [i2 H2].
  destruct (responsive_served env3 0 Hr3) as [i3 H3].
  destruct (set_account_status_reason env1 i1 db uid p hold reason H1 Hp)
    as (db1 & p1 & Hrun1 & Hp1 & Hs1 & _ & Hb1 & _ & _ & Hw1 & _).
  destruct (set_account_status_reason env3 i3 db1 uid p1 active None H3 Hp1)
    as (db2 & p2 & Hrun2 & Hp2 & Hs2 & Hh2 & Hb2 & _ & _ & Hw2 & _).
  destruct (create_served env4 db2 uid p2 id amount net charges bank)
    as (db3 & Hrun3 & Hw3 & Hp3); [done|done|by rewrite Hw2, Hw1|done|done|lia|].
  eexists db1, db2, db3, _, _. split; [done|]. split.
  { by apply (withdrawal_create_on_hold env2 i2 db1 uid p1). }
  split; [done|]. split; [exact Hrun3|]. split; [done|].
  split; [done|]. split; [done|]. split; [exact Hp3|]. simpl.
  split; [lia|]. by split.
Qed.

Lemma hold_then_release_witness :
  ∃ db1 db2 db3 w p3,
    run quiet (profileService.setAccountStatus "u1" hold (Some "chargeback")) ledger =
      (Resolved success, db1) ∧
    run quiet (withdrawalService.create "u1" 200 150 50 hdfc) db1 =
      (Rejected AccountOnHold, db1) ∧
    run quiet (profileService.setAccountStatus "u1" active None) db1 =
      (Resolved success, db2) ∧
    run quiet (withdrawalService.create "u1" 200 150 50 hdfc) db2 =
      (Resolved w, db3) ∧
    withdrawal_row db3 "id1" w ∧ w_status w = pending ∧ w_amount w = 200 ∧
    profile_row db3 "u1" p3 ∧
    p_balance p3 = 1000 - 200 ∧
    p_account_status p3 = active ∧ p_hold_reason p3 = None.
Proof.
  apply (hold_then_release quiet quiet quiet quiet ledger "u1" alice "id1"
           (Some "chargeback") 200 150 50 hdfc quiet_responsive quiet_responsive
           quiet_responsive quiet_responsive); [reflexivity..|simpl; lia].
Defined.

(** X15.  For a user id that no profile row carries, the writes that do not read
    the row back ([updateBalance], [setAccountStatus], [updateKycStatus],
    [submitKyc]) resolve with success although nothing is written, whereas
    [updateProfile] and [getProfile] are rejected with the store's
    [.single()] error; in every case the store is left as it was. *)
Theorem writes_without_profile env id0 db uid :
  env 0%nat = Served id0 →
  where_eq p_id uid (profiles db) = [] →
  (∀ newBalance,
     run env (profileService.updateBalance uid newBalance) db = (Resolved success, db)) ∧
  (∀ status reason,
     run env (profileService.setAccountStatus uid status reason) db =
       (Resolved success, db)) ∧
  (∀ status,
     run env (profileService.updateKycStatus uid status) db = (Resolved success, db)) ∧
  (∀ documentUrl,
     run env (profileService.submitKyc uid documentUrl) db = (Resolved success, db)) ∧
  (∀ updates,
     run env (profileService.updateProfile uid updates) db = (Rejected PGRST116, db)) ∧
  run env (profileService.getProfile uid) db = (Rejected PGRST116, db).
Proof.
  intros H0 Hnone.
  unfold profileService.updateBalance, profileService.setAccountStatus,
    profileService.updateKycStatus, profileService.submitKyc.
  repeat split; intros;
    try (rewrite (run_update_profile _ id0) by done;
         rewrite update_eq_no_match by done; by rewrite set_profiles_same).
  - unfold profileService.updateProfile, await_data. rewrite run_await, H0. simpl.
    by rewrite update_eq_no_match, Hnone by done.
  - unfold profileService.getProfile, await_data. rewrite run_await, H0. simpl.
    by rewrite Hnone.
Qed.

Lemma writes_without_profile_witness :
  run quiet (profileService.updateBalance "u2" 5000) ledger = (Resolved success, ledger) ∧
  run quiet (profileService.updateProfile "u2" (balance_patch 5000)) ledger =
    (Rejected PGRST116, ledger).
Proof.
  destruct (writes_without_profile quiet "id0" ledger "u2" eq_refl eq_refl)
    as (Hbalance & _ & _ & _ & Hupdate & _).
  split; [apply Hbalance|apply Hupdate].
Defined.

(** X16.  KYC: a served [submitKyc] stores the document and sets the status back
    to [KycPending] whatever it was, verified included; a following
    [updateKycStatus] writes its status and keeps the document.  Neither
    touches the balance. *)
Theorem kyc_submit_then_review env env' id0 id0' db uid p documentUrl status :
  env 0%nat = Served id0 →
  env' 0%nat = Served id0' →
  profile_row db uid p →
  ∃ db1 p1 db2 p2,
    run env (profileService.submitKyc uid documentUrl) db = (Resolved success, db1) ∧
    profile_row db1 uid p1 ∧
    p_kyc_status p1 = KycPending ∧ p_kyc_document p1 = Some documentUrl ∧
    p_balance p1 = p_balance p ∧
    run env' (profileService.updateKycStatus uid status) db1 = (Resolved success, db2) ∧
    profile_row db2 uid p2 ∧
    p_kyc_status p2 = status ∧ p_kyc_document p2 = Some documentUrl ∧
    p_balance p2 = p_balance p.
Proof.
  intros H0 H0' Hp.
  unfold profileService.submitKyc, profileService.updateKycStatus.
  rewrite (run_update_profile _ id0) by done. cbn [run].
  eexists _, _, _, _. split; [done|].
  split; [by apply profile_row_update|]. do 3 (split; [done|]).
  rewrite (run_update_profile _ id0') by done. cbn [run].
  split; [done|]. split.
  - by apply (profile_row_update _ uid), profile_row_update.
  - done.
Qed.

Lemma kyc_submit_then_review_witness :
  ∃ db1 p1 db2 p2,
    run quiet (profileService.submitKyc "u1" "https://files.example/kyc.pdf") ledger =
      (Resolved success, db1) ∧
    profile_row db1 "u1" p1 ∧
    p_kyc_status p1 = KycPending ∧
    p_kyc_document p1 = Some "https://files.example/kyc.pdf" ∧
    p_balance p1 = 1000 ∧
    run quiet (profileService.updateKycStatus "u1" KycRejected) db1 =
      (Resolved success, db2) ∧
    profile_row db2 "u1" p2 ∧
    p_kyc_status p2 = KycRejected ∧
    p_kyc_document p2 = Some "https://files.example/kyc.pdf" ∧
    p_balance p2 = 1000.
Proof.
  apply (kyc_submit_then_review quiet quiet "id0" "id0" ledger "u1" alice
           "https://files.example/kyc.pdf" KycRejected); reflexivity.
Defined.

(** ** storageService *)

Lemma append_cons c s t : String c s +:+ t = String c (s +:+ t).
Proof. reflexivity. Qed.

Lemma append_empty_r s : s +:+ "" = s.
Proof. induction s as [|c s IH]; [done|]. by rewrite append_cons, IH. Qed.

Lemma append_snoc s c t : (s +:+ String c "") +:+ t = s +:+ String c t.
Proof. induction s as [|c' s IH]; [done|]. by rewrite !append_cons, IH. Qed.

Lemma has_dot_snoc s c :
  has_dot (s +:+ String c "") = has_dot s || Ascii.eqb c (Ascii.ascii_of_nat 46).
Proof.
  induction s as [|c' s IH].
  - change ("" +:+ String c "") with (String c ""). simpl. by rewrite orb_false_r.
  - rewrite append_cons. simpl. by rewrite IH, orb_assoc.
Qed.

Lemma split_pop_dotless segment name :
  has_dot segment = false → has_dot (split_pop segment name) = false.
Proof.
  revert segment. induction name as [|c rest IH]; intros segment Hseg; simpl; [done|].
  destruct (Ascii.eqb c (Ascii.ascii_of_nat 46)) eqn:Hc.
  - by apply IH.
  - apply IH. by rewrite has_dot_snoc, Hseg, Hc.
Qed.

Lemma split_pop_no_dot segment name :
  has_dot name = false → split_pop segment name = segment +:+ name.
Proof.
  revert segment. induction name as [|c rest IH]; intros segment Hname; simpl in *.
  - by rewrite append_empty_r.
  - apply orb_false_iff in Hname as [Hc Hrest]. rewrite Hc, IH by done.
    apply append_snoc.
Qed.

Lemma split_pop_after_dot segment base ext :
  split_pop segment (base +:+ String (Ascii.ascii_of_nat 46) ext) = split_pop "" ext.
Proof.
  revert segment. induction base as [|c base IH]; intros segment.
  - done.
  - rewrite append_cons. simpl.
    destruct (Ascii.eqb c (Ascii.ascii_of_nat 46)); apply IH.
Qed.

(** X17.  The extension the uploads give a stored file: it never contains a dot;
    it is what follows the last dot of the file name, and the whole file name
    when the name has no dot. *)
Theorem file_extension name :
  has_dot (split_pop "" name) = false ∧
  (has_dot name = false → split_pop "" name = name) ∧
  (∀ base ext,
     name = base +:+ String (Ascii.ascii_of_nat 46) ext →
     has_dot ext = false →
     split_pop "" name = ext).
Proof.
  split; [by apply split_pop_dotless|]. split.
  - intros Hname. by rewrite split_pop_no_dot by done.
  - intros base ext -> Hext. rewrite split_pop_after_dot. by rewrite split_pop_no_dot by done.
Qed.

Lemma file_extension_witness :
  has_dot (split_pop "" "receipt.final.png") = false ∧
  split_pop "" "receipt.final.png" = "png" ∧
  split_pop "" "README" = "README".
Proof.
  split; [apply (file_extension "receipt.final.png")|]. split.
  - apply (proj2 (proj2 (file_extension "receipt.final.png")) "receipt.final" "png");
      reflexivity.
  - apply (proj1 (proj2 (file_extension "README"))). reflexivity.
Defined.






(** ** What no call does *)

Lemma fmap_update_eq {Row B} (key : Row → string) k (g : Row → Row) (f : Row → B) rows :
  (∀ r, f (g r) = f r) → f <$> update_eq key k g rows = f <$> rows.
Proof.
  intros Hf. unfold update_eq. rewrite <- list_fmap_compose.
  apply list_fmap_ext. intros i r _. simpl. by case_decide.
Qed.

(** X20.  Only six service functions can change a balance: [depositService.approve],
    [withdrawalService.create], [reject] and [fail], and
    [profileService.updateProfile] and [updateBalance].  Every other call
    leaves the balance of every profile as it was, whatever its arguments and
    whatever the backend does. *)
Theorem balance_untouched c env db :
  writes_balance c = false →
  (λ p, (p_id p, p_balance p)) <$> profiles (run env (perform c) db).2 =
  (λ p, (p_id p, p_balance p)) <$> profiles db.
Proof.
  intros Hc. destruct c; try discriminate Hc; unfold_services; run_cases; simpl;
    try done.
  all: by apply fmap_update_eq.
Qed.

Lemma balance_untouched_witness :
  (λ p, (p_id p, p_balance p))
    <$> profiles (run quiet (perform (ProfileSetAccountStatus "u1" hold None)) ledger).2 =
  [("u1", 1000)].
Proof.
  apply (balance_untouched (ProfileSetAccountStatus "u1" hold None) quiet ledger).
  reflexivity.
Defined.

Lemma kept_refl {Row} (same : Row → Row → Prop) rows :
  (∀ r, same r r) → kept same rows rows.
Proof.
  intros Hsame. exists [], rows. split; [done|]. split; [simpl; lia|].
  by apply Forall_Forall2_diag, Forall_forall.
Qed.

Lemma kept_cons {Row} (same : Row → Row → Prop) r rows :
  (∀ r, same r r) → kept same rows (r :: rows).
Proof.
  intros Hsame. exists [r], rows. split; [done|]. split; [simpl; lia|].
  by apply Forall_Forall2_diag, Forall_forall.
Qed.

Lemma kept_update {Row} (same : Row → Row → Prop) key k g (rows : list Row) :
  (∀ r, same r (g r)) → (∀ r, same r r) → kept same rows (update_eq key k g rows).
Proof.
  intros Hg Hsame. exists [], (update_eq key k g rows). split; [done|].
  split; [simpl; lia|]. apply update_eq_related; auto.
Qed.

Lemma same_request_refl w : same_request w w.
Proof. by repeat split. Qed.

Lemma same_deposit_refl d : same_deposit d d.
Proof. by repeat split. Qed.

(** X21.  No call ever deletes or reorders a withdrawal or a deposit, or changes
    its id, owner, amounts or payment details: after any call, whatever the
    backend does, every row that was there is still there with the same
    request data, behind at most one new row. *)
Theorem requests_are_kept c env db :
  kept same_request (withdrawals db) (withdrawals (run env (perform c) db).2) ∧
  kept same_deposit (deposits db) (deposits (run env (perform c) db).2).
Proof.
  destruct c; unfold_services; run_cases; simpl; split;
    first [ apply kept_refl; (apply same_request_refl || apply same_deposit_refl)
          | apply kept_cons; (apply same_request_refl || apply same_deposit_refl)
          | apply kept_update;
            [intros ?; by repeat split
            |(apply same_request_refl || apply same_deposit_refl)] ].
Qed.

Lemma requests_are_kept_witness :
  kept same_request [payout processing]
    (withdrawals (run quiet (perform (WithdrawalFail "w1" 200 "u1" "bank rejected"))
                    (ledger_with_payout processing)).2) ∧
  kept same_deposit []
    (deposits (run quiet (perform (WithdrawalFail "w1" 200 "u1" "bank rejected"))
                 (ledger_with_payout processing)).2).
Proof.
  apply (requests_are_kept (WithdrawalFail "w1" 200 "u1" "bank rejected") quiet
           (ledger_with_payout processing)).
Defined.

(** ** Signing up *)

(** X22.  [handle_new_user] for an id and an email that no profile carries adds
    one profile with a zero balance, pending KYC and an active account; the
    name and the role are the ones of the sign-up metadata (an empty name and
    the role [RoleUser] when absent).  The new user cannot withdraw any
    positive amount, and signing up again with the same id changes
    nothing. *)
Theorem sign_up_profile db id email name role :
  where_eq p_id id (profiles db) = [] →
  where_eq p_email email (profiles db) = [] →
  let db' := handle_new_user id email name role db in
  profile_row db' id
    (mkProfile id email (default "" name) None (default RoleUser role) 0 KycPending None
       active None) ∧
  deposits db' = deposits db ∧ withdrawals db' = withdrawals db ∧
  (∀ env amount net charges bank,
     (0 < amount)%Z →
     run env (withdrawalService.create id amount net charges bank) db' =
       (Rejected
          match env 0%nat with
          | Refused e => e
          | Served _ => InsufficientBalance
          end, db')) ∧
  (∀ email' name' role', handle_new_user id email' name' role' db' = db').
Proof.
  intros Hid Hemail db'. unfold db', handle_new_user.
  rewrite (has_key_false p_id), (has_key_false p_email) by done. cbn [orb].
  set (p := mkProfile id email (default "" name) None (default RoleUser role) 0
              KycPending None active None).
  assert (Hrow : profile_row (set_profiles (p :: profiles db) db) id p).
  { unfold profile_row. cbn [profiles set_profiles].
    rewrite where_eq_cons, decide_True by done. by rewrite Hid. }
  split; [exact Hrow|]. split; [done|]. split; [done|]. split.
  - intros env amount net charges bank Hpos.
    unfold withdrawalService.create, await_data. rewrite run_await.
    destruct (env 0%nat) as [i|e]; [|done].
    cbn [answer exec fst snd]. rewrite Hrow. cbn [single run].
    rewrite decide_False by done. by rewrite decide_True by (simpl; lia).
  - intros email' name' role'. unfold handle_new_user.
    by rewrite (has_key_true p_id _ _ _ _ Hrow).
Qed.

Lemma sign_up_profile_witness :
  let db' := handle_new_user "u9" "mallory@example.com" None (Some RoleAdmin) ledger in
  profile_row db' "u9"
    (mkProfile "u9" "mallory@example.com" "" None RoleAdmin 0 KycPending None active None) ∧
  deposits db' = [] ∧ withdrawals db' = [] ∧
  (∀ env amount net charges bank,
     (0 < amount)%Z →
     run env (withdrawalService.create "u9" amount net charges bank) db' =
       (Rejected
          match env 0%nat with
          | Refused e => e
          | Served _ => InsufficientBalance
          end, db')) ∧
  (∀ email' name' role', handle_new_user "u9" email' name' role' db' = db').
Proof.
  apply (sign_up_profile ledger "u9" "mallory@example.com" None (Some RoleAdmin));
    reflexivity.
Defined.

(** ** The withdrawal forms *)







Lemma error_step_empty (b : bool) k v (errors : gmap string string) :
  (if b then <[k:=v]> errors else errors) = ∅ ↔ b = false ∧ errors = ∅.
Proof.
  destruct b; split.
  - intros H. by apply insert_non_empty in H.
  - by intros [? _].
  - done.
  - by intros [_ ?].
Qed.

(** X24.  The two withdrawal forms accept the same input: WithdrawalFormModal,
    which collects an error per field, returns true exactly when
    WithdrawalModal, which stops at the first failing check, returns true for
    a withdrawal charge of 50. *)
Theorem forms_agree parseFloat trim balance form :
  WithdrawalFormModal.validateForm parseFloat trim balance form = true ↔
  WithdrawalModal.validateForm parseFloat trim balance 50 form = None.
Proof.
  unfold WithdrawalFormModal.validateForm, WithdrawalFormModal.newErrors,
    WithdrawalModal.validateForm, WithdrawalFormModal.numAmount,
    WithdrawalModal.numAmount, WithdrawalFormModal.withdrawalCharge.
  rewrite bool_decide_eq_true, map_size_empty_iff. cbv zeta.
  rewrite !error_step_empty.
  repeat case_bool_decide; split; try done; by intuition.
Qed.

Lemma forms_agree_witness :
  WithdrawalFormModal.validateForm sample_parseFloat sample_trim 1000 filled_form = true.
Proof.
  apply (forms_agree sample_parseFloat sample_trim 1000 filled_form). reflexivity.
Defined.

(** X25.  The message WithdrawalFormModal shows under the amount field is that of
    the last failing amount check: the charge message whenever the amount is
    at most 50, else the balance message when the amount exceeds the balance,
    else none.  Since an empty field reads as 0, the message "Please enter a
    valid amount" is never the one shown. *)
Theorem form_amount_message parseFloat trim balance form :
  parseFloat "" = None →
  WithdrawalFormModal.newErrors parseFloat trim balance form !! "amount" =
    if bool_decide (WithdrawalFormModal.numAmount parseFloat form ≤ 50)%Z
    then Some "Amount must be greater than withdrawal charge (₹50)"
    else if bool_decide (balance < WithdrawalFormModal.numAmount parseFloat form)%Z
    then Some "Insufficient balance"
    else None.
Proof.
  intros Hnan.
  unfold WithdrawalFormModal.newErrors, WithdrawalFormModal.withdrawalCharge. cbv zeta.
  assert (Hempty : f_amount form = "" → WithdrawalFormModal.numAmount parseFloat form = 0).
  { intros Hf. unfold WithdrawalFormModal.numAmount. by rewrite Hf, Hnan. }
  repeat case_bool_decide; simplify_map_eq; try done.
  all: exfalso;
    match goal with
    | H : _ ∨ _ |- _ => destruct H as [Hf|Hle]; [apply Hempty in Hf|]; lia
    end.
Qed.

Lemma form_amount_message_witness :
  WithdrawalFormModal.newErrors sample_parseFloat sample_trim 1000
    (mkWithdrawalForm "" "" "" "" "") !! "amount" =
  Some "Amount must be greater than withdrawal charge (₹50)".
Proof.
  apply (form_amount_message sample_parseFloat sample_trim 1000
           (mkWithdrawalForm "" "" "" "" "")). reflexivity.
Defined.

(** ** The route guards *)

(** X26.  [AdminRoute] renders its children exactly when the session is loaded, a
    user is signed in and the profile is there with the admin role; it then
    renders what [ProtectedRoute] renders, and whenever [ProtectedRoute]
    withholds the children (loading, or nobody signed in) [AdminRoute]
    renders the same thing.  A signed-in user without admin profile is sent
    to the dashboard. *)
Theorem admin_route_guard {User : Type} (user : option User) profile loading location :
  (AdminRoute user profile loading location = Children ↔
   loading = false ∧ is_Some user ∧ ∃ p, profile = Some p ∧ p_role p = RoleAdmin) ∧
  (AdminRoute user profile loading location = Children →
   ProtectedRoute user loading location = Children) ∧
  (ProtectedRoute user loading location ≠ Children →
   AdminRoute user profile loading location = ProtectedRoute user loading location) ∧
  (loading = false → is_Some user → p_role <$> profile ≠ Some RoleAdmin →
   AdminRoute user profile loading location = Navigate "/dashboard" None).
Proof.
  unfold AdminRoute, ProtectedRoute. split; [split|split; [|split]].
  - destruct loading; [done|]. destruct user as [u|]; [|done].
    case_bool_decide as Hrole; [done|]. intros _.
    split; [done|]. split; [by eexists|].
    destruct profile as [p|]; simpl in Hrole.
    + exists p. split; [done|]. by injection Hrole.
    + discriminate Hrole.
  - intros (-> & [u ->] & p & -> & Hrole). simpl. rewrite Hrole.
    by rewrite bool_decide_eq_false_2 by (intros H; by apply H).
  - destruct loading; [done|]. by destruct user.
  - destruct loading; [done|]. by destruct user.
  - intros -> [u ->] Hrole. by rewrite bool_decide_eq_true_2.
Qed.

Lemma admin_route_guard_witness :
  AdminRoute (Some "session") (Some alice) false "/admin/withdrawals" =
    Navigate "/dashboard" None.
Proof.
  destruct (admin_route_guard (Some "session") (Some alice) false "/admin/withdrawals")
    as (_ & _ & _ & H).
  apply H; [done|by eexists|done].
Defined.

(** ** More on withdrawals *)

(** X27.  [startProcessing] computes its deadline on the local wall clock: the
    local reading of the clock is moved on by the duration and taken back to
    UTC.  When that is a date, a served call makes the withdrawal
    [processing] and stores it as the deadline; a following [hold] makes it
    [held] and leaves the deadline in place; neither touches the amount or
    any profile.  When it is no date, the call throws a RangeError before any
    request is made and the store stays as it was.  In a zone whose offset
    never changes, the deadline is the clock reading plus the duration. *)
Theorem processing_deadline LocalTZA env env' id0 id0' db wid w now minutes :
  env 0%nat = Served id0 →
  env' 0%nat = Served id0' →
  withdrawal_row db wid w →
  let deadline := UTC LocalTZA (LocalTime LocalTZA now + minutes * msPerMinute) in
  ((Z.abs deadline ≤ 8640000000000000)%Z →
   ∃ db1 w1 db2 w2,
     run env (withdrawalService.startProcessing LocalTZA now wid minutes) db =
       (Resolved success, db1) ∧
     withdrawal_row db1 wid w1 ∧
     w_status w1 = processing ∧
     w_processing_end_time w1 = Some deadline ∧
     w_amount w1 = w_amount w ∧
     run env' (withdrawalService.hold wid) db1 = (Resolved success, db2) ∧
     withdrawal_row db2 wid w2 ∧
     w_status w2 = held ∧
     w_processing_end_time w2 = Some deadline ∧
     w_amount w2 = w_amount w ∧
     profiles db2 = profiles db) ∧
  ((8640000000000000 < Z.abs deadline)%Z →
   run env (withdrawalService.startProcessing LocalTZA now wid minutes) db =
     (Rejected InvalidTimeValue, db)) ∧
  ((∀ t isUTC, LocalTZA t isUTC = LocalTZA now true) →
   deadline = now + minutes * msPerMinute).
Proof.
  intros H0 H0' Hw deadline.
  assert (Hset : setMinutes LocalTZA now (getMinutes LocalTZA now + minutes) =
                 TimeClip deadline) by apply setMinutes_later.
  split; [|split].
  - intros Hrange.
    rewrite (run_start_processing _ _ _ _ _ _ deadline)
      by (rewrite Hset; unfold TimeClip; by rewrite bool_decide_true).
    unfold withdrawalService.hold.
    rewrite (run_update_withdrawal _ id0) by done. cbn [run].
    eexists _, _, _, _. split; [done|].
    split; [by apply withdrawal_row_update|]. do 3 (split; [done|]).
    rewrite (run_update_withdrawal _ id0') by done. cbn [run].
    split; [done|]. split.
    + by apply (withdrawal_row_update _ wid), withdrawal_row_update.
    + done.
  - intros Hrange. unfold withdrawalService.startProcessing.
    rewrite Hset. unfold TimeClip. by rewrite bool_decide_false by lia.
  - intros Hzone. unfold deadline, UTC, LocalTime. rewrite (Hzone _ false). lia.
Qed.

(** In Berlin at 02:15 on the night the clocks went back, for the second
    time that night, a processing time of 30 minutes ends at 02:45 for the
    first time: half an hour before it began. *)
Lemma processing_deadline_witness :
  ∃ db1 w1 db2 w2,
    run quiet (withdrawalService.startProcessing Berlin 1729991700000 "w1" 30)
      (ledger_with_payout pending) = (Resolved success, db1) ∧
    withdrawal_row db1 "w1" w1 ∧
    w_status w1 = processing ∧
    w_processing_end_time w1 = Some (1729991700000 - 30 * 60000) ∧
    w_amount w1 = 200 ∧
    run quiet (withdrawalService.hold "w1") db1 = (Resolved success, db2) ∧
    withdrawal_row db2 "w1" w2 ∧
    w_status w2 = held ∧
    w_processing_end_time w2 = Some (1729991700000 - 30 * 60000) ∧
    w_amount w2 = 200 ∧
    profiles db2 = [with_balance 800 alice].
Proof.
  apply (processing_deadline Berlin quiet quiet "id0" "id0" (ledger_with_payout pending)
           "w1" (payout pending) 1729991700000 30); [reflexivity..|by vm_compute].
Defined.

(** X28.  Two requests one after the other: when the balance covers the first
    amount but what is left does not cover the second, the first is recorded
    and debited and the second is turned down with [InsufficientBalance],
    leaving the store as the first left it. *)
Theorem second_request_sees_debit env env' db uid p id amount1 amount2 net1 net2
    charges bank :
  responsive env → responsive env' →
  env 1%nat = Served id →
  where_eq w_id id (withdrawals db) = [] →
  profile_row db uid p →
  p_account_status p = active →
  (amount1 ≤ p_balance p)%Z →
  (p_balance p - amount1 < amount2)%Z →
  ∃ w db1,
    run env (withdrawalService.create uid amount1 net1 charges bank) db =
      (Resolved w, db1) ∧
    profile_row db1 uid (with_balance (p_balance p - amount1) p) ∧
    run env' (withdrawalService.create uid amount2 net2 charges bank) db1 =
      (Rejected InsufficientBalance, db1).
Proof.
  intros Hresp Hresp' Hid Hfresh Hp Hactive Hle Hlt.
  destruct (create_served env db uid p id amount1 net1 charges bank)
    as (db1 & Hrun & Hw & Hp1); [done..|].
  destruct (responsive_served env' 0 Hresp') as [j0 H0'].
  eexists _, db1. split; [exact Hrun|]. split; [exact Hp1|].
  unfold withdrawalService.create, await_data. rewrite run_await, H0'.
  cbn [answer exec fst snd]. rewrite Hp1. cbn [single run].
  rewrite decide_False by (simpl; by rewrite Hactive).
  by rewrite decide_True by (simpl; lia).
Qed.

Lemma second_request_sees_debit_witness :
  ∃ w db1,
    run quiet (withdrawalService.create "u1" 600 550 50 hdfc) ledger = (Resolved w, db1) ∧
    profile_row db1 "u1" (with_balance (1000 - 600) alice) ∧
    run quiet (withdrawalService.create "u1" 600 550 50 hdfc) db1 =
      (Rejected InsufficientBalance, db1).
Proof.
  apply (second_request_sees_debit quiet quiet ledger "u1" alice "id1" 600 600 550 550
           50 hdfc quiet_responsive quiet_responsive);
    [reflexivity..|simpl; lia|simpl; lia].
Defined.

(** X29.  The admin listings: a served [getAllWithdrawals] resolves to one entry
    per withdrawal row, in the order of the table, and an entry whose owner
    has a profile carries that profile's name, email and account status;
    [getAllDeposits] likewise with the name and email.  Both leave the store
    alone. *)
Theorem admin_listings env id0 db :
  env 0%nat = Served id0 →
  ∃ ws ds,
    run env withdrawalService.getAllWithdrawals db = (Resolved ws, db) ∧
    run env depositService.getAllDeposits db = (Resolved ds, db) ∧
    wv_withdrawal <$> ws = withdrawals db ∧
    dv_deposit <$> ds = deposits db ∧
    (∀ v p, v ∈ ws → profile_row db (w_user_id (wv_withdrawal v)) p →
            wv_user_name v = Some (p_name p) ∧ wv_user_email v = Some (p_email p) ∧
            wv_account_status v = Some (p_account_status p)) ∧
    (∀ v p, v ∈ ds → profile_row db (d_user_id (dv_deposit v)) p →
            dv_user_name v = Some (p_name p) ∧ dv_user_email v = Some (p_email p)).
Proof.
  intros H0.
  unfold withdrawalService.getAllWithdrawals, depositService.getAllDeposits, await_data.
  rewrite !run_await, H0. cbn [answer exec fst snd run].
  eexists _, _. split; [done|]. split; [done|].
  rewrite <- !list_fmap_compose. split; [|split; [|split]].
  - clear. induction (withdrawals db) as [|w ws IH]; [done|].
    rewrite fmap_cons. simpl. by rewrite IH at 1.
  - clear. induction (deposits db) as [|d ds IH]; [done|].
    rewrite fmap_cons. simpl. by rewrite IH at 1.
  - intros v p Hv Hp. apply list_elem_of_fmap in Hv as (w & -> & _). simpl in *.
    unfold profile_ref. unfold profile_row in Hp. by rewrite Hp.
  - intros v p Hv Hp. apply list_elem_of_fmap in Hv as (d & -> & _). simpl in *.
    unfold profile_ref. unfold profile_row in Hp. by rewrite Hp.
Qed.

Lemma admin_listings_witness :
  ∃ ws ds,
    run quiet withdrawalService.getAllWithdrawals (ledger_with_payout held) =
      (Resolved ws, ledger_with_payout held) ∧
    run quiet depositService.getAllDeposits (ledger_with_payout held) =
      (Resolved ds, ledger_with_payout held) ∧
    wv_withdrawal <$> ws = [payout held] ∧
    dv_deposit <$> ds = [] ∧
    (∀ v p, v ∈ ws →
            profile_row (ledger_with_payout held) (w_user_id (wv_withdrawal v)) p →
            wv_user_name v = Some (p_name p) ∧ wv_user_email v = Some (p_email p) ∧
            wv_account_status v = Some (p_account_status p)) ∧
    (∀ v p, v ∈ ds →
            profile_row (ledger_with_payout held) (d_user_id (dv_deposit v)) p →
            dv_user_name v = Some (p_name p) ∧ dv_user_email v = Some (p_email p)).
Proof.
  apply (admin_listings quiet "id0" (ledger_with_payout held)). reflexivity.
Defined.

(** ** Keys *)

Lemma keys_update_eq {Row} (key : Row → string) k f (rows : list Row) :
  (∀ r, key r = k → key (f r) = k) →
  key <$> update_eq key k f rows = key <$> rows.
Proof.
  intros Hkey. unfold update_eq. rewrite <- list_fmap_compose.
  apply list_fmap_ext. intros i r _. simpl. case_decide; [|done].
  rewrite Hkey by done. done.
Qed.

Lemma has_key_not_elem {Row} (key : Row → string) k (rows : list Row) :
  has_key key k rows = false → k ∉ key <$> rows.
Proof.
  unfold has_key. intros Hk%bool_decide_eq_false.
  assert (Hnone : where_eq key k rows = []).
  { destruct (where_eq key k rows); [done|]. by destruct Hk. }
  clear Hk. induction rows as [|r rows IH]; [by intros ?%elem_of_nil|].
  rewrite where_eq_cons in Hnone. rewrite fmap_cons.
  destruct (decide (key r = k)) as [|Hne]; [done|].
  intros [?|?]%elem_of_cons; [congruence|by apply IH].
Qed.

Lemma upsert_keeps_unique k v ss :
  NoDup (s_key <$> ss) → NoDup (s_key <$> upsert_setting k v ss).
Proof.
  intros Hss. unfold upsert_setting. destruct (has_key s_key k ss) eqn:Hk.
  - by rewrite keys_update_eq.
  - rewrite fmap_cons. apply NoDup_cons_2; [|done]. by apply has_key_not_elem.
Qed.

Lemma call_keeps_unique_keys env c db :
  unique_keys db → unique_keys (run env (perform c) db).2.
Proof.
  intros (Hp & Hd & Hw & Hs).
  destruct c; unfold_services; run_cases_eq; unfold unique_keys; simpl;
    repeat split;
    repeat first
      [ assumption
      | rewrite keys_update_eq by done
      | apply upsert_keeps_unique
      | apply NoDup_cons_2; [by apply has_key_not_elem|] ].
Qed.

(** X30.  In every state the services can reach from the tables of schema.sql,
    whatever the calls and whatever the backend does, no two profiles,
    deposits or withdrawals share an id and no two settings share a key. *)
Theorem keys_stay_unique db :
  reachable (λ _, True) db → unique_keys db.
Proof.
  induction 1 as [|db id email name role _ IH|db env c _ IH _].
  - unfold unique_keys, initial. simpl. repeat split; try apply NoDup_nil_2.
    refine (bool_decide_unpack _ _). by vm_compute.
  - unfold handle_new_user.
    destruct (has_key p_id id (profiles db)) eqn:Hid; [done|].
    destruct (has_key p_email email (profiles db)); [done|]. simpl.
    destruct IH as (Hp & Hd & Hw & Hs). unfold unique_keys. simpl.
    repeat split; try done. apply NoDup_cons_2; [|done]. by apply has_key_not_elem.
  - by apply call_keeps_unique_keys.
Qed.

Lemma keys_stay_unique_witness : unique_keys after_top_up.
Proof.
  apply keys_stay_unique.
  apply reachable_call; [apply reachable_sign_up, reachable_initial|done].
Defined.
